(** * The wiki content store and its HTTP middleware

    A shallow embedding of the Git-backed store adapter ([GetPage],
    [GetFile], [GetConfig]) and of the HTTP middleware around it
    ([putSessionKey], [CheckAuthentication], [LowerCaseCanonical]),
    followed by the properties required of them. *)

From Stdlib Require Import String Ascii List Bool Arith ZArith Lia Permutation.
From stdpp Require Import base option list strings gmap.
From Equations Require Import Equations.

Import ListNotations.
Local Open Scope string_scope.
Local Open Scope list_scope.

(** ** path/filepath (Unix flavour) *)

Module Filepath.

Definition Separator : ascii := "/"%char.

Definition is_sep (c : ascii) : bool := Ascii.eqb c Separator.

(** The segments of a path, [strings.Split(s, "/")]: the fields between
    separators; a string without separator is its own single field. *)
Fixpoint segments (s : string) : list string :=
  match s with
  | EmptyString => [EmptyString]
  | String c s' =>
      if is_sep c then EmptyString :: segments s'
      else match segments s' with
           | [] => [String c EmptyString]
           | h :: t => String c h :: t
           end
  end.

(** [strings.Join(elems, "/")]. *)
Fixpoint join_sep (l : list string) : string :=
  match l with
  | [] => ""
  | [x] => x
  | x :: rest => x +:+ "/" +:+ join_sep rest
  end.

Definition IsAbs (p : string) : bool :=
  match p with
  | String c _ => is_sep c
  | EmptyString => false
  end.

(** One step of the lexical clean-up of [Clean]; [out] is the stack of
    kept elements, innermost first. *)
Definition clean_step (rooted : bool) (out : list string) (seg : string)
  : list string :=
  if String.eqb seg "" then out
  else if String.eqb seg "." then out
  else if String.eqb seg ".." then
    match out with
    | top :: below =>
        if String.eqb top ".." then seg :: out else below
    | [] => if rooted then [] else [seg]
    end
  else seg :: out.

Definition clean_segs (rooted : bool) (segs : list string) : list string :=
  rev (fold_left (clean_step rooted) segs []).

Definition render (rooted : bool) (segs : list string) : string :=
  if rooted then "/" +:+ join_sep segs
  else match segs with
       | [] => "."
       | _ => join_sep segs
       end.

(** [filepath.Clean]. *)
Definition Clean (p : string) : string :=
  render (IsAbs p) (clean_segs (IsAbs p) (segments p)).

Definition nonempty (s : string) : bool := negb (String.eqb s "").

(** [filepath.Join]: from the first element that is not empty on, the
    elements are joined with the separator and the result is cleaned; when
    every element is empty the result is the empty string. *)
Fixpoint Join (elems : list string) : string :=
  match elems with
  | [] => ""
  | e :: rest => if nonempty e then Clean (join_sep elems) else Join rest
  end.

(** The elements of a path, after cleaning. *)
Definition elements (p : string) : list string :=
  clean_segs (IsAbs p) (segments p).

(** Whether a string contains a separator. *)
Fixpoint contains_sep (s : string) : bool :=
  match s with
  | EmptyString => false
  | String c s' => is_sep c || contains_sep s'
  end.

(** An element that names a file or directory: not empty, not ".", not
    "..". *)
Definition plain (seg : string) : bool :=
  negb (String.eqb seg "") && negb (String.eqb seg ".") && negb (String.eqb seg "..").

(** The shape of the stack of [Clean]: names on top of a run of leading
    ".." elements, which a rooted path never keeps. *)
Definition clean_stack (rooted : bool) (out : list string) : Prop :=
  exists (names : list string) (k : nat),
    out = names ++ repeat ".." k /\
    Forall (fun x => plain x = true) names /\
    (rooted = true -> k = 0).

(** A single path element that names something. *)
Definition is_name (seg : string) : bool := plain seg && negb (contains_sep seg).

End Filepath.

(** ** Go values shared by the store and the middleware *)

(** [error] values the code creates or receives. *)
Inductive error : Type :=
  | ErrNotExist (op path : string)     (* *fs.PathError wrapping fs.ErrNotExist *)
  | Errorf (msg : string).             (* fmt.Errorf / errors.New *)

(** The [%v] rendering of an error. *)
Definition error_string (e : error) : string :=
  match e with
  | ErrNotExist op path => op +:+ " " +:+ path +:+ ": no such file or directory"
  | Errorf msg => msg
  end.

Definition bytes : Type := list Byte.byte.

(** ** The Git backend *)

Module Git.

(** What an operation of the backend does to the outside world, in order. *)
Inductive Event : Type :=
  | EvRLock
  | EvRUnlock
  | EvReadFile (path : string)
  | EvPathAtRevision (gitPath revision : string).

Section Backend.

(** The object database and working copy behind [pathAtRevision], and
    the values handed out by the backend; their declarations are not
    part of the adapter code. *)
Variables (Repo Page ReadCloser : Type).

Record World : Type := mkWorld {
  files : gmap string bytes;     (* the file system, by path *)
  repo : Repo;
  trace : list Event
}.

(** Stateful code threads the world. *)
Definition M (A : Type) : Type := World -> A * World.

Definition ret {A} (a : A) : M A := fun w => (a, w).
Definition bind {A B} (m : M A) (k : A -> M B) : M B :=
  fun w => let '(a, w') := m w in k a w'.
Definition emit (e : Event) : M unit :=
  fun w => (tt, mkWorld (files w) (repo w) (trace w ++ [e])).
Definition get_world : M World := fun w => (w, w).

Notation "'let*' x ':=' m 'in' k" := (bind m (fun x => k))
  (at level 10, x name, m at level 200, k at level 200).
Notation "'let*' ' pat ':=' m 'in' k" := (bind m (fun x => match x with pat => k end))
  (at level 10, pat pattern, m at level 200, k at level 200).
Notation "'run' m 'then' k" := (bind m (fun _ => k))
  (at level 10, m at level 200, k at level 200).

(** [defer d] around a function body: [d] runs when the body returns. *)
Definition deferring {A} (d : M unit) (body : M A) : M A :=
  let* a := body in run d then ret a.

Record GitBackend : Type := mkBackend {
  dir : string
}.

(** Methods of [GitBackend] that the adapter calls and whose bodies are
    elsewhere. Each returns all its Go results, the error last. *)
Variable resolvePath : string -> string -> string * string * option error.
Variable pathAtRevision :
  gmap string bytes -> Repo -> string -> string ->
  string * option ReadCloser * option error.
Variable GetPageAt : GitBackend -> string -> string -> M (option Page * option error).

(** The package-level [revision] that [GetFile] reads. *)
Variable revision : string.

Definition RLock : M unit := emit EvRLock.
Definition RUnlock : M unit := emit EvRUnlock.

Definition call_pathAtRevision (gitPath rev : string)
  : M (string * option ReadCloser * option error) :=
  run emit (EvPathAtRevision gitPath rev) then
  let* w := get_world in
  ret (pathAtRevision (files w) (repo w) gitPath rev).

(** [os.ReadFile]. *)
Definition ReadFile (path : string) : M (option bytes * option error) :=
  run emit (EvReadFile path) then
  let* w := get_world in
  match files w !! path with
  | Some content => ret (Some content, None)
  | None => ret (None, Some (ErrNotExist "open" path))
  end.

Definition GetPage (g : GitBackend) (title : string)
  : M (option Page * option error) :=
  GetPageAt g title "HEAD".

(** The second [:=] re-assigns [err]: the error of [resolvePath] is
    never inspected. The final [return b] is taken with a nil error. *)
Definition GetFile (g : GitBackend) (name : string)
  : M (option ReadCloser * option error) :=
  run RLock then
  deferring RUnlock (
    let '(_, gitPath, err) := resolvePath (dir g) name in
    let* '(_, b, err) := call_pathAtRevision gitPath revision in
    match err with
    | Some e => ret (None, Some e)
    | None => ret (b, None)
    end).

Definition configPath (g : GitBackend) (name : string) : string :=
  Filepath.Join [dir g; ".wiki"; name +:+ ".json.enc"].

(** The reserved metadata directory of a backend. *)
Definition metadataDir (g : GitBackend) : string :=
  Filepath.Join [dir g; ".wiki"].

Definition GetConfig (g : GitBackend) (name : string)
  : M (option bytes * option error) :=
  let filePath := configPath g name in
  ReadFile filePath.

End Backend.

Arguments mkWorld {Repo} _ _ _.
Arguments files {Repo} _.
Arguments repo {Repo} _.
Arguments trace {Repo} _.
Arguments GetPage {Repo Page} _ _ _.
Arguments GetFile {Repo ReadCloser} _ _ _ _ _.
Arguments GetConfig {Repo} _ _.
Arguments ReadFile {Repo} _.

(** The events an operation added to the trace. *)
Definition events_since {Repo} (before after : World Repo) : list Event :=
  drop (length (trace before)) (trace after).

(** Whether every access to the working copy or the repository in a run
    of events happens while the shared lock is held; [held] counts the
    shared holds at the start of the run. *)
Fixpoint guarded_from (held : nat) (tr : list Event) : bool :=
  match tr with
  | [] => true
  | EvRLock :: tr' => guarded_from (S held) tr'
  | EvRUnlock :: tr' =>
      match held with
      | 0 => false
      | S h => guarded_from h tr'
      end
  | (EvReadFile _ | EvPathAtRevision _ _) :: tr' =>
      match held with
      | 0 => false
      | S _ => guarded_from held tr'
      end
  end.

(** The final number of shared holds after a run of events. *)
Fixpoint holds_after (held : nat) (tr : list Event) : nat :=
  match tr with
  | [] => held
  | EvRLock :: tr' => holds_after (S held) tr'
  | EvRUnlock :: tr' => holds_after (pred held) tr'
  | _ :: tr' => holds_after held tr'
  end.

End Git.

(** ** Sessions and HTTP middleware *)

Module Middleware.

Definition StatusPermanentRedirect : nat := 308.
Definition StatusUnauthorized : nat := 401.
Definition StatusNotFound : nat := 404.

Definition SameSiteStrictMode : nat := 3.

Definition sessionName : string := "wiki".
Definition sessionUserKey : string := "user".
Definition sessionErrorKey : string := "error".
Definition contextUserKey : string := "user".
Definition contextErrorKey : string := "error".
Definition contextSessionKey : string := "session".

(** [config.User], as far as the middleware looks at it. *)
Record User : Type := mkUser { userName : string }.

(** Addresses of [sessions.Session] objects. *)
Definition loc : Type := nat.

(** [interface{}] values found in a context or a session; pointers may
    be nil. *)
Inductive any : Type :=
  | AString (s : string)
  | ABool (b : bool)
  | AUser (p : option User)
  | ASession (p : option loc).

Record Options : Type := mkOptions {
  HttpOnly : bool;
  SameSite : nat;
  MaxAge : Z
}.

Record Session : Type := mkSession {
  Values : gmap string any;
  IsNew : bool;
  SOptions : Options
}.

Record Request : Type := mkRequest {
  RequestURI : string;
  URLPath : string;
  Context : gmap string any
}.

Definition getUserForRequest (r : Request) : option User :=
  match Context r !! contextUserKey with
  | Some (AUser p) => p
  | _ => None
  end.

Definition getSessionForRequest (r : Request) : option loc :=
  match Context r !! contextSessionKey with
  | Some (ASession p) => p
  | _ => None
  end.

Section Sessions.

Variable ResponseWriter : Type.

(** The [Save] method of a session, which belongs to the session store. *)
Variable Save : Session -> Request -> ResponseWriter -> ResponseWriter * option error.

(** The session objects and the process log. *)
Record State : Type := mkState {
  heap : gmap loc Session;
  logged : list string
}.

Definition putSessionKey (w : ResponseWriter) (r : Request)
    (key : string) (value : any) (st : State) : ResponseWriter * State :=
  match getSessionForRequest r with
  | Some l =>
      match heap st !! l with
      | Some s =>
          let s1 := mkSession (<[key := value]> (Values s)) (IsNew s) (SOptions s) in
          let s2 :=
            if IsNew s1
            then mkSession (Values s1) (IsNew s1)
                   (mkOptions true SameSiteStrictMode (60 * 60 * 24 * 31)%Z)
            else s1 in
          let '(w', err) := Save s2 r w in
          let st' := mkState (<[l := s2]> (heap st)) (logged st) in
          match err with
          | Some e =>
              (w', mkState (heap st')
                     (logged st' ++ ["Unable to save session: " +:+ error_string e]))
          | None => (w', st')
          end
      | None => (w, st)
      end
  | None => (w, st)
  end.

Definition clearSessionKey (w : ResponseWriter) (r : Request)
    (key : string) (st : State) : ResponseWriter * State :=
  match getSessionForRequest r with
  | Some l =>
      match heap st !! l with
      | Some s =>
          let s1 := mkSession (delete key (Values s)) (IsNew s) (SOptions s) in
          let '(w', _) := Save s1 r w in
          (w', mkState (<[l := s1]> (heap st)) (logged st))
      | None => (w, st)
      end
  | None => (w, st)
  end.

End Sessions.

Arguments putSessionKey {ResponseWriter} _ _ _ _ _ _.
Arguments clearSessionKey {ResponseWriter} _ _ _ _ _.

(** The session as [putSessionKey] hands it to [Save]. *)
Definition updated_session (s : Session) (key : string) (value : any) : Session :=
  if IsNew s
  then mkSession (<[key := value]> (Values s)) (IsNew s)
         (mkOptions true SameSiteStrictMode (60 * 60 * 24 * 31)%Z)
  else mkSession (<[key := value]> (Values s)) (IsNew s) (SOptions s).

(** What a handler does with a request: write a status, redirect, or
    pass the request on to the wrapped handler. *)
Inductive Action : Type :=
  | WriteHeader (status : nat)
  | Redirect (url : string) (code : nat)
  | ServeNext (r : Request).

Definition Handler : Type := Request -> list Action.

(** [strings.HasPrefix(s, prefix)]. *)
Definition HasPrefix (s pre : string) : bool := String.prefix pre s.

Section CheckAuthentication.

Variables (authForReads authForWrites : bool).

Definition authEntries : list (string * bool) :=
  [ ("/edit/", authForWrites);
    ("/file/", authForReads);
    ("/history/", authForReads);
    ("/view/", authForReads);
    ("/wiki/index", authForReads);
    ("/wiki/files", authForReads);
    ("/wiki/login", false);
    ("/wiki/logout", false);
    ("/wiki/upload", authForWrites) ].

Definition authRequirements : gmap string bool := list_to_map authEntries.

(** The loop of [findPrefix]; [order] is the order in which [range]
    happens to yield the keys of the map. *)
Fixpoint findPrefix_in (order : list string) (target : string)
  : bool * option error :=
  match order with
  | [] => (false, Some (Errorf ("unknown route: " +:+ target)))
  | i :: rest =>
      if HasPrefix target i
      then (default false (authRequirements !! i), None)
      else findPrefix_in rest target
  end.

Definition CheckAuthentication (order : list string) : Handler :=
  fun request =>
    let '(needAuth, err) := findPrefix_in order (URLPath request) in
    match err with
    | Some _ => [WriteHeader StatusNotFound]
    | None =>
        if needAuth
        then match getUserForRequest request with
             | None => [WriteHeader StatusUnauthorized]
             | Some _ => [ServeNext request]
             end
        else [ServeNext request]
    end.

End CheckAuthentication.

(** The keys of [authRequirements]. *)
Definition routePrefixes : list string :=
  [ "/edit/"; "/file/"; "/history/"; "/view/"; "/wiki/index";
    "/wiki/files"; "/wiki/login"; "/wiki/logout"; "/wiki/upload" ].

Definition requiresAuth (authForReads authForWrites : bool) (p : string) : bool :=
  default false (authRequirements authForReads authForWrites !! p).

Section LowerCaseCanonical.

(** [strings.ToLower]. *)
Variable ToLower : string -> string.

Definition LowerCaseCanonical : Handler :=
  fun request =>
    if negb (String.eqb (ToLower (RequestURI request)) (RequestURI request))
    then [Redirect (ToLower (RequestURI request)) StatusPermanentRedirect]
    else [ServeNext request].

End LowerCaseCanonical.

(** [strings.ToLower] on ASCII text. *)
Definition lower_ascii (c : ascii) : ascii :=
  let n := nat_of_ascii c in
  if Nat.leb 65 n && Nat.leb n 90 then ascii_of_nat (n + 32) else c.

Fixpoint ToLowerASCII (s : string) : string :=
  match s with
  | EmptyString => EmptyString
  | String c s' => String (lower_ascii c) (ToLowerASCII s')
  end.

End Middleware.

(** ** Components of the store whose code is not part of the adapter file *)

(** The error kinds of the store. *)
Inductive StoreError : Type :=
  | PathError
  | NotFoundError
  | InvalidRevisionError
  | CommitError
  | DecryptionError.

Module Resolver.

Inductive Namespace : Type := Pages | Files | Metadata.

Definition metadataDir : string := ".wiki".

(** Modelled from the spec: the fixed namespace roots of the path
    resolver (pages, files, reserved metadata), each a directory directly
    under the repository root. *)
Definition namespaceRoot (ns : Namespace) : string :=
  match ns with
  | Pages => "pages"
  | Files => "files"
  | Metadata => metadataDir
  end.

(** Modelled from the spec: the normalization of a logical name, here the
    case folding that the URL canonicalization of the wiki also applies. *)
Definition normalize (name : string) : string := Middleware.ToLowerASCII name.

Definition has_segment (seg : string) (name : string) : bool :=
  existsb (String.eqb seg) (Filepath.segments name).

(** Modelled from the spec: [resolve(logicalName, namespace)] of the path
    resolver, whose body ([resolvePath]) is missing. It normalizes the
    name, rejects the empty name, an absolute name, a parent-directory
    segment and a segment equal to the metadata directory name, and joins
    the name under the namespace root; the result is relative to the
    repository root. *)
Definition resolve (name : string) (ns : Namespace) : StoreError + string :=
  let n := normalize name in
  if String.eqb n "" then inl PathError
  else if Filepath.IsAbs n then inl PathError
  else if has_segment ".." n then inl PathError
  else if has_segment metadataDir n then inl PathError
  else inr (Filepath.Join [namespaceRoot ns; n]).

(** A path lies strictly inside [root] when its elements are those of
    [root] followed by at least one more, none of them a step upwards. *)
Definition strictly_inside (root p : string) : Prop :=
  exists rel : list string,
    rel <> [] /\ ~ In ".." rel /\
    Filepath.elements p = Filepath.elements root ++ rel.

End Resolver.

(** Revisions, newest first: the head of the chain is the tip. *)
Record Revision : Type := mkRevision {
  rev_id : string;
  rev_parent : option string;
  rev_author : string;
  rev_time : nat;
  rev_message : string;
  rev_paths : list string
}.

Module CommitWriter.

Record RepoState : Type := mkRepoState {
  worktree : gmap string bytes;            (* the working copy *)
  index : gmap string (option bytes);      (* staged changes; None = removal *)
  chain : list Revision
}.

Definition tip (st : RepoState) : option string := rev_id <$> head (chain st).

Section Commit.

(** Which disk operations fail, and the content address of a new
    revision. *)
Variable stage_fails : string -> bool.
Variable write_fails : bool.
Variable revisionId :
  option string -> string -> string -> list (string * option bytes) -> string.

(** Modelled from the spec: staging of the commit writer, one physical
    path after the other, stopping at the first failure. *)
Fixpoint stage (paths : list string) (st : RepoState) : option StoreError * RepoState :=
  match paths with
  | [] => (None, st)
  | p :: rest =>
      if stage_fails p then (Some CommitError, st)
      else stage rest
             (mkRepoState (worktree st)
                (<[p := worktree st !! p]> (index st)) (chain st))
  end.

(** Modelled from the spec: a failed commit records no partial state: the
    paths staged so far are unstaged again, the index is as before. *)
Definition unstage (before st : RepoState) : RepoState :=
  mkRepoState (worktree st) (index before) (chain st).

(** Modelled from the spec: [commit(physicalPaths, author, message)] of
    the commit writer, whose code is missing: stage exactly the given
    paths, then record one new revision whose parent is the tip; when
    staging or the write of the revision fails, nothing is recorded and
    the caller gets a CommitError. *)
Definition commit (paths : list string) (author message : string) (now : nat)
    (st : RepoState) : (StoreError + Revision) * RepoState :=
  match stage paths st with
  | (Some e, st1) => (inl e, unstage st st1)
  | (None, st1) =>
      if write_fails then (inl CommitError, unstage st st1)
      else
        let r := mkRevision
                   (revisionId (tip st1) author message (map_to_list (index st1)))
                   (tip st1) author now message paths in
        (inr r, mkRepoState (worktree st1) ∅ (r :: chain st1))
  end.

End Commit.

End CommitWriter.

Module HistoryWalker.




(** The part of the chain that follows the revision named by a cursor. *)
Fixpoint after (id : string) (revs : list Revision) : option (list Revision) :=
  match revs with
  | [] => None
  | r :: rest => if String.eqb (rev_id r) id then Some rest else after id rest
  end.



Section History.

Variable path : string.





End History.

End HistoryWalker.

Module ConfigCodec.

Section Codec.

(** The symmetric cipher of the configuration codec, keyed at start-up;
    [None] is a failed decryption. *)
Variable decrypt : bytes -> option bytes.

(** Modelled from the spec: the contract [get(name)] of the configuration
    codec, decrypted bytes or an error, over the stored blob. *)
Definition get_contract (stored : option bytes) : StoreError + bytes :=
  match stored with
  | None => inl NotFoundError
  | Some blob =>
      match decrypt blob with
      | Some plain => inr plain
      | None => inl DecryptionError
      end
  end.

End Codec.

End ConfigCodec.

(** ** Concrete data used to run the definitions *)

Definition dataBackend : Git.GitBackend := Git.mkBackend "/data".

(** A world whose only file is an encrypted configuration blob. *)
Definition usersBlob : bytes := [Byte.x01; Byte.x02; Byte.x03].

Definition usersWorld : Git.World unit :=
  Git.mkWorld {[ "/data/.wiki/users.json.enc" := usersBlob ]} tt [].

(** Modelled from the spec: [resolvePath] as [GetFile] calls it, over the
    path resolver; it returns the path in the file system, the path in the
    repository and the error, the paths empty when there is an error. *)
Definition resolvePath_model (dir name : string) : string * string * option error :=
  match Resolver.resolve name Resolver.Files with
  | inr p => (Filepath.Join [dir; p], p, None)
  | inl _ => ("", "", Some (Errorf "invalid path"))
  end.

Definition anonymousRequest (uri : string) : Middleware.Request :=
  Middleware.mkRequest uri uri ∅.

Definition aliceRequest (uri : string) : Middleware.Request :=
  Middleware.mkRequest uri uri
    {[ Middleware.contextUserKey :=
         Middleware.AUser (Some (Middleware.mkUser "alice")) ]}.

(** A chain of one revision that edits the page "pages/home". *)
Definition homeChain : list Revision :=
  [ mkRevision "r1" None "alice" 1 "create home" ["pages/home"] ].


(** A repository with one revision, two pages changed in the working
    copy and nothing staged; and a stand-in for the content address. *)
Definition editedRepo : CommitWriter.RepoState :=
  CommitWriter.mkRepoState
    (<["pages/home" := [Byte.x68; Byte.x69]]> (<["pages/about" := [Byte.x61]]> ∅))
    ∅ homeChain.

Definition demoRevisionId (parent : option string) (author message : string)
    (staged : list (string * option bytes)) : string :=
  "r2".

(** ** The rest of the middleware: session handler, session arguments and
    the not-found interceptor *)

(** How a call ends: normally, or in a panic. *)
Inductive Result (A : Type) : Type :=
  | Ok (a : A)
  | Panic (msg : string).

Arguments Ok {A} _.
Arguments Panic {A} _.

(** The interface [UserProvider]. *)
Class UserProvider (P : Type) : Type := {
  provideUser : P -> string -> option Middleware.User
}.

(** A provider over a table of users: an unknown name gives nil. *)
#[export] Instance table_provider : UserProvider (gmap string Middleware.User) := {
  provideUser table name := table !! name
}.

Module Writer.

(** The interface [http.ResponseWriter], as far as the code uses it:
    [Header().Set], [WriteHeader] and [Write]. *)
Class ResponseWriter (W : Type) : Type := {
  HeaderSet : string -> string -> W -> W;
  WriteHeader : nat -> W -> W;
  Write : bytes -> W -> (nat * option error) * W
}.

(** A writer that records what it is asked to do. *)
Inductive WriterCall : Type :=
  | CallHeaderSet (key value : string)
  | CallWriteHeader (status : nat)
  | CallWrite (p : bytes).

#[export] Instance recording_writer : ResponseWriter (list WriterCall) := {
  HeaderSet key value w := w ++ [CallHeaderSet key value];
  WriteHeader status w := w ++ [CallWriteHeader status];
  Write p w := ((length p, None), w ++ [CallWrite p])
}.

End Writer.

Export (hints) Writer.

Module Http.

Import Middleware.

Definition getErrorForRequest (r : Request) : string :=
  match Context r !! contextErrorKey with
  | Some (AString v) => v
  | _ => ""
  end.

(** [request.WithContext(context.WithValue(request.Context(), key, v))]:
    the newest value of a key is the one found. *)
Definition WithValue (r : Request) (key : string) (v : any) : Request :=
  mkRequest (RequestURI r) (URLPath r) (<[key := v]> (Context r)).

Section SessionHandler.

Context {P : Type} `{UserProvider P}.

Variable up : P.

(** [store.Get(request, sessionName)]; the handler drops its error. *)
Variable storeGet : Request -> string -> option loc * option error.

(** The handler over the session objects as they are after [store.Get].
    Reading [s.Values] through a nil session and asserting that a user
    name which is no string is one both panic. *)
Definition SessionHandler (heap : gmap loc Session) (request : Request)
  : Result (list Action) :=
  let '(sp, _) := storeGet request sessionName in
  match sp ≫= (fun l => heap !! l) with
  | None => Panic "invalid memory address or nil pointer dereference"
  | Some s =>
      let withUser :=
        match Values s !! sessionUserKey with
        | Some (AString username) =>
            match provideUser up username with
            | Some user => Ok (WithValue request contextUserKey (AUser (Some user)))
            | None => Ok request
            end
        | Some _ => Panic "interface conversion: interface {} is not string"
        | None => Ok request
        end in
      match withUser with
      | Panic msg => Panic msg
      | Ok request1 =>
          let request2 :=
            match Values s !! sessionErrorKey with
            | Some e => WithValue request1 contextErrorKey e
            | None => request1
            end in
          let request3 := WithValue request2 contextSessionKey (ASession sp) in
          Ok [ServeNext request3]
      end
  end.

(** The user a session stands for: the one the provider knows under the
    name stored in the session. *)
Definition session_user (s : Session) : option User :=
  match Values s !! sessionUserKey with
  | Some (AString username) => provideUser up username
  | _ => None
  end.

End SessionHandler.

(** One handler wrapped around the next: every request the first passes
    on is served by the second. *)
Definition serve_with (next : Handler) (a : Action) : list Action :=
  match a with
  | ServeNext r => next r
  | other => [other]
  end.

Definition wrap (acts : Result (list Action)) (next : Handler) : Result (list Action) :=
  match acts with
  | Ok l => Ok (concat (map (serve_with next) l))
  | Panic msg => Panic msg
  end.

Record SessionArgs : Type := mkSessionArgs {
  CanEdit : bool;
  Error : string;
  ArgsUser : option User;
  CsrfField : string;
  RequestedUrl : string
}.

Section SessionArgs.

Variable W : Type.
Variable Save : Session -> Request -> W -> W * option error.

(** [csrf.TemplateField] and [r.URL.String]. *)
Variable TemplateField : Request -> string.
Variable URLString : Request -> string.

Definition getSessionArgs (w : W) (r : Request) (st : State)
  : SessionArgs * (W * State) :=
  let user := getUserForRequest r in
  let e := getErrorForRequest r in
  let after :=
    if negb (String.eqb e "")
    then clearSessionKey Save w r sessionErrorKey st
    else (w, st) in
  (mkSessionArgs (bool_decide (is_Some user)) e user (TemplateField r) (URLString r),
   after).

End SessionArgs.

Arguments getSessionArgs {W} _ _ _ _ _ _.

(** [notFoundInterceptWriter]. *)
Record notFoundInterceptWriter (W : Type) : Type := mkIntercept {
  realWriter : W;
  status : nat
}.

Arguments mkIntercept {W} _ _.
Arguments realWriter {W} _.
Arguments status {W} _.

#[export] Instance intercept_writer {W : Type} `{Writer.ResponseWriter W}
  : Writer.ResponseWriter (notFoundInterceptWriter W) := {
  Writer.HeaderSet key value w :=
    mkIntercept (Writer.HeaderSet key value (realWriter w)) (status w);
  Writer.WriteHeader st w :=
    if negb (Nat.eqb st StatusNotFound)
    then mkIntercept (Writer.WriteHeader st (realWriter w)) st
    else mkIntercept (realWriter w) st;
  Writer.Write p w :=
    if negb (Nat.eqb (status w) StatusNotFound)
    then let '(res, rw) := Writer.Write p (realWriter w) in
         (res, mkIntercept rw (status w))
    else ((length p, None), w)
}.

(** What a handler does to its writer: a sequence of calls, each [Write]
    followed by whatever the handler makes of its result. *)
Inductive Prog : Type :=
  | Done
  | DoHeaderSet (key value : string) (k : Prog)
  | DoWriteHeader (status : nat) (k : Prog)
  | DoWrite (p : bytes) (k : nat * option error -> Prog).

Fixpoint runProg {W : Type} `{Writer.ResponseWriter W} (prog : Prog) (w : W) : W :=
  match prog with
  | Done => w
  | DoHeaderSet key value k => runProg k (Writer.HeaderSet key value w)
  | DoWriteHeader st k => runProg k (Writer.WriteHeader st w)
  | DoWrite p k => let '(res, w') := Writer.Write p w in runProg (k res) w'
  end.

(** A handler program that never writes the status 404. *)
Fixpoint never404 (prog : Prog) : Prop :=
  match prog with
  | Done => True
  | DoHeaderSet _ _ k => never404 k
  | DoWriteHeader st k => st <> StatusNotFound /\ never404 k
  | DoWrite _ k => forall res, never404 (k res)
  end.

(** A handler program that writes no status at all. *)
Fixpoint no_status (prog : Prog) : Prop :=
  match prog with
  | Done => True
  | DoHeaderSet _ _ k => no_status k
  | DoWriteHeader _ _ => False
  | DoWrite _ k => forall res, no_status (k res)
  end.

(** What remains of a program once its [Write]s are swallowed: each of
    them reports all its bytes written. *)
Fixpoint swallowed (prog : Prog) : Prog :=
  match prog with
  | Done => Done
  | DoHeaderSet key value k => DoHeaderSet key value (swallowed k)
  | DoWriteHeader st k => DoWriteHeader st (swallowed k)
  | DoWrite p k => swallowed (k (length p, None))
  end.

(** A program that only sets headers. *)
Fixpoint headers_only (prog : Prog) : Prop :=
  match prog with
  | Done => True
  | DoHeaderSet _ _ k => headers_only k
  | _ => False
  end.

(** The calls of a program that reach the writer behind the interceptor,
    the interceptor holding the status [st]: every header field, every
    status but 404, and every [Write] made while the status held is not
    404; a [Write] made under 404 is told that all its bytes were
    written. *)
Fixpoint forwarded (prog : Prog) (st : nat) : Prog :=
  match prog with
  | Done => Done
  | DoHeaderSet key value k => DoHeaderSet key value (forwarded k st)
  | DoWriteHeader st' k =>
      if Nat.eqb st' StatusNotFound then forwarded k st'
      else DoWriteHeader st' (forwarded k st')
  | DoWrite p k =>
      if Nat.eqb st StatusNotFound then forwarded (k (length p, None)) st
      else DoWrite p (fun res => forwarded (k res) st)
  end.

(** The last status of a program is 404 ([is404 = true]) or is none or
    another one ([is404 = false]), whatever its [Write]s report; [cur]
    tells whether the status before the program is 404. *)
Fixpoint ends_with (is404 : bool) (prog : Prog) (cur : bool) : Prop :=
  match prog with
  | Done => cur = is404
  | DoHeaderSet _ _ k => ends_with is404 k cur
  | DoWriteHeader st k => ends_with is404 k (Nat.eqb st StatusNotFound)
  | DoWrite _ k => forall res, ends_with is404 (k res) cur
  end.

(** The writer calls of a handler given by its actions; what
    [http.Redirect] and the next handler do are left open. *)
Definition prog_of_action (redirect : string -> nat -> Prog) (next : Request -> Prog)
    (a : Action) : Prog :=
  match a with
  | Middleware.WriteHeader st => DoWriteHeader st Done
  | Redirect url code => redirect url code
  | ServeNext r => next r
  end.

(** One program after the other. *)
Fixpoint andThen (first second : Prog) : Prog :=
  match first with
  | Done => second
  | DoHeaderSet key value k => DoHeaderSet key value (andThen k second)
  | DoWriteHeader st k => DoWriteHeader st (andThen k second)
  | DoWrite p k => DoWrite p (fun res => andThen (k res) second)
  end.

Definition prog_of_actions (redirect : string -> nat -> Prog) (next : Request -> Prog)
    (acts : list Action) : Prog :=
  fold_right (fun a rest => andThen (prog_of_action redirect next a) rest) Done acts.

Section NotFoundHandler.

Context {W : Type} `{Writer.ResponseWriter W}.

Variable Save : Session -> Request -> W -> W * option error.
Variable TemplateField : Request -> string.
Variable URLString : Request -> string.

(** The template [NotFound] and [renderTemplate], which are declared
    elsewhere; the page arguments are the session arguments and the page
    title. *)
Variable NotFound : string.
Variable renderTemplate : string -> nat -> SessionArgs * string -> W -> W.

Definition NotFoundHandler (h : Request -> Prog) (w : W) (r : Request) (st : State)
  : W * State :=
  let fakeWriter := runProg (h r) (mkIntercept w 0) in
  if Nat.eqb (status fakeWriter) StatusNotFound
  then
    let '(args, (w1, st1)) :=
      getSessionArgs Save TemplateField URLString (realWriter fakeWriter) r st in
    (renderTemplate NotFound StatusNotFound (args, "Page not found") w1, st1)
  else (realWriter fakeWriter, st).

End NotFoundHandler.

End Http.

Export (hints) Http.

(** ** Templates: the size of a file in words *)

Module Templates.

Local Open Scope Z_scope.

(** A 64-bit signed integer keeps the low 64 bits of a result. *)
Definition wrap64 (z : Z) : Z := (z + 2 ^ 63) mod 2 ^ 64 - 2 ^ 63.

Definition multiple : Z := 1024.

(** The loop of [formatBytes]: [n] runs through the quotients of the size,
    [denominator] and [power] are an int64 and an int. *)
Equations scale (n denominator power : Z) : Z * Z by wf (Z.to_nat (Z.log2 n)) lt :=
  scale n denominator power with Z_ge_lt_dec n multiple := {
    | left _ =>
        scale (Z.quot n multiple) (wrap64 (denominator * multiple)) (wrap64 (power + 1))
    | right _ => (denominator, power) }.
Next Obligation.
  unfold multiple in *.
  assert (0 <= Z.quot n 1024) as Hq.
  { rewrite Z.quot_div_nonneg by lia. apply Z.div_pos; lia. }
  assert (Z.log2 (Z.quot n 1024) < Z.log2 n).
  { rewrite Z.quot_div_nonneg by lia. change 1024 with (2 ^ 10).
    rewrite <- Z.shiftr_div_pow2 by lia. rewrite Z.log2_shiftr by lia.
    assert (10 <= Z.log2 n).
    { change 10 with (Z.log2 1024). apply Z.log2_le_mono. lia. }
    lia. }
  pose proof (Z.log2_nonneg (Z.quot n 1024)). lia.
Qed.

(** What [formatBytes] hands to [fmt.Sprintf]: the size itself for
    ["%d B"], or the size, the denominator it is divided by as a float and
    the letter of the unit for ["%.1f %ciB"]. *)
Inductive Formatted : Type :=
  | InBytes (size : Z)
  | Scaled (size denominator : Z) (unit : ascii).

(** [s[i]] for an int [i]: out of range it panics. *)
Definition index (s : string) (i : Z) : option ascii :=
  if (i <? 0) then None else String.get (Z.to_nat i) s.

Definition formatBytes (size : Z) : Result Formatted :=
  if size <? multiple then Ok (InBytes size)
  else
    let '(denominator, power) := scale (Z.quot size multiple) multiple 0 in
    match index "KMGTPE" power with
    | Some unit => Ok (Scaled size denominator unit)
    | None => Panic "index out of range"
    end.

End Templates.

(** ** The build file *)

Module Mage.

(** The line feed that ends a printed line. *)
Definition nl : string := String (ascii_of_nat 10) EmptyString.

Definition ProjectName : string := "wiki".
Definition DistFolder : string := "dist".
Definition GoExe : string := "go".
Definition DockerEXE : string := "docker".
Definition GitExe : string := "git".

Record Architecture : Type := mkArchitecture {
  OS : string;
  Arch : string;
  BinarySuffix : string;
  ArchiveType : string
}.

Record CompilerOptions : Type := mkCompilerOptions {
  GCFlags : list string;
  LDFlags : list string;
  MiscFlags : list string
}.

Definition arches : list Architecture :=
  [ mkArchitecture "linux" "amd64" "" ".tar.gz";
    mkArchitecture "linux" "arm64" "" ".tar.gz";
    mkArchitecture "darwin" "amd64" "" ".tar.gz";
    mkArchitecture "darwin" "arm64" "" ".tar.gz";
    mkArchitecture "windows" "amd64" ".exe" ".zip" ].

(** [strings.Join]. *)
Fixpoint strings_Join (elems : list string) (sep : string) : string :=
  match elems with
  | [] => ""
  | [x] => x
  | x :: rest => x +:+ sep +:+ strings_Join rest sep
  end.

(** [strings.TrimPrefix]. *)
Definition TrimPrefix (s pre : string) : string :=
  if String.prefix pre s
  then String.substring (String.length pre) (String.length s - String.length pre) s
  else s.

Definition getAllFlags (c : CompilerOptions) (output : string) : list string :=
  let buildFlags := ["build"] in
  let buildFlags := buildFlags ++ MiscFlags c in
  let buildFlags := buildFlags ++ ["-gcflags=" +:+ strings_Join (GCFlags c) " "] in
  let buildFlags := buildFlags ++ ["-ldflags=" +:+ strings_Join (LDFlags c) " "] in
  let buildFlags := buildFlags ++ ["-o"] in
  let buildFlags := buildFlags ++ [output] in
  let buildFlags := buildFlags ++ ["."] in
  buildFlags.

(** The name of a binary, [%s_%s_%s_%s] of project, system, architecture
    and build tag. *)
Definition binaryName (buildTag : string) (a : Architecture) : string :=
  ProjectName +:+ "_" +:+ OS a +:+ "_" +:+ Arch a +:+ "_" +:+ buildTag.

Definition getOutputName (buildTag : string) (a : Architecture) : string :=
  Filepath.Join [DistFolder; "binaries"; binaryName buildTag a +:+ BinarySuffix a].

(** The two paths of [Release.Archive] for an architecture: the binary it
    puts into the archive and the archive it writes, without its type. *)
Definition archiveSource (buildTag : string) (a : Architecture) : string :=
  "dist/" +:+ binaryName buildTag a +:+ BinarySuffix a.

Definition archiveOutputName (buildTag : string) (a : Architecture) : string :=
  Filepath.Join [DistFolder; "archives"; binaryName buildTag a].

(** The package variables; the build time is a point in time. *)
Record Globals : Type := mkGlobals {
  isTag : bool;
  semverTags : list string;
  buildTag : string;
  buildTime : Z
}.

(** The values the package variables start with. *)
Definition initialGlobals : Globals := mkGlobals false [] "unknown" 0.

(** How a target ends: it returns, or the process exits. *)
Inductive Outcome (A S : Type) : Type :=
  | Returned (a : A) (st : S)
  | Exited (code : nat) (st : S).

Arguments Returned {A S} _ _.
Arguments Exited {A S} _ _.

Section Shell.

(** What is outside the process: the repository, the network, the
    docker daemon. The commands of [sh] read and change it. *)
Variable Ext : Type.
Variable sh_Output : list string -> Ext -> (string * option error) * Ext.
Variable sh_Exec : list string -> Ext -> (string * bool * option error) * Ext.
Variable sh_Run : list string -> Ext -> option error * Ext.

(** [semver.NewVersion], giving major, minor and patch; [%d]; and
    [time.Parse] with the time format of the build. *)
Variable NewVersion : string -> (Z * Z * Z) + error.
Variable itoa : Z -> string.
Variable parseTime : string -> Z + error.

Definition getTag (x : Ext) : (string * option error) * Ext :=
  let '((_, err), x1) := sh_Output [GitExe; "fetch"; "--tags"] x in
  match err with
  | Some e => (("", Some e), x1)
  | None =>
      let '((out, err), x2) := sh_Output [GitExe; "describe"; "--tags"] x1 in
      match err with
      | Some e => (("", Some e), x2)
      | None => ((out, None), x2)
      end
  end.

Definition getExactTag (x : Ext) : (string * bool * option error) * Ext :=
  let '((_, err), x1) := sh_Output [GitExe; "fetch"; "--tags"] x in
  match err with
  | Some e => (("", false, Some e), x1)
  | None =>
      let '((buf, ran, err), x2) :=
        sh_Exec [GitExe; "describe"; "--exact-match"; "--tags"] x1 in
      if negb ran && bool_decide (is_Some err) then (("", false, err), x2)
      else if ran && bool_decide (is_Some err) then (("", false, err), x2)
      else ((buf, true, err), x2)
  end.

(** The state of the build: package variables, the outside, and what was
    printed. *)
Record BuildState : Type := mkBuildState {
  globals : Globals;
  outside : Ext;
  printed : list string
}.

Definition setBuildVersion (st : BuildState) : option error * BuildState :=
  let g := globals st in
  let '((tag, err), x1) := getTag (outside st) in
  let g1 := mkGlobals (isTag g) (semverTags g) tag (buildTime g) in
  match err with
  | Some e => (Some e, mkBuildState g1 x1 (printed st))
  | None =>
      let '((exactTag, tagged, _), x2) := getExactTag x1 in
      let g2 := mkGlobals tagged (semverTags g1) (buildTag g1) (buildTime g1) in
      (None,
       mkBuildState g2 x2
         (printed st ++
            [if tagged then "Tagged build: " +:+ exactTag +:+ nl
             else "Snapshot build: " +:+ buildTag g2 +:+ nl]))
  end.

Definition setBuildTime (st : BuildState) : option error * BuildState :=
  let g := globals st in
  let '((commitTimestamp, err), x1) :=
    sh_Output [GitExe; "show"; "-s"; "--format=%ci"; "HEAD"] (outside st) in
  match err with
  | Some e => (Some e, mkBuildState g x1 (printed st))
  | None =>
      match parseTime commitTimestamp with
      | inr e =>
          (Some e,
           mkBuildState (mkGlobals (isTag g) (semverTags g) (buildTag g) 0) x1 (printed st))
      | inl t =>
          (None,
           mkBuildState (mkGlobals (isTag g) (semverTags g) (buildTag g) t) x1 (printed st))
      end
  end.

Definition setSemVerTags (st : BuildState) : option error * BuildState :=
  let g := globals st in
  if negb (isTag g)
  then (None,
        mkBuildState
          (mkGlobals (isTag g) (semverTags g ++ ["latest"]) (buildTag g) (buildTime g))
          (outside st) (printed st))
  else
    let g1 := mkGlobals (isTag g) (semverTags g) (TrimPrefix (buildTag g) "v")
                (buildTime g) in
    match NewVersion (buildTag g1) with
    | inr e =>
        (Some e,
         mkBuildState g1 (outside st)
           (printed st ++ ["Not a semver release: " +:+ error_string e +:+ nl]))
    | inl (major, minor, patch) =>
        let tags :=
          semverTags g1 ++ [itoa major +:+ "." +:+ itoa minor +:+ "." +:+ itoa patch] in
        let tags := tags ++ [itoa major +:+ "." +:+ itoa minor] in
        let tags := tags ++ [itoa major] in
        (None,
         mkBuildState (mkGlobals (isTag g1) tags (buildTag g1) (buildTime g1))
           (outside st) (printed st))
    end.

(** [init]: the three settings in turn; an error of any of them ends the
    process with status 1. *)
Definition init (st : BuildState) : Outcome unit BuildState :=
  match setBuildTime st with
  | (Some _, st1) => Exited 1 st1
  | (None, st1) =>
      match setBuildVersion st1 with
      | (Some _, st2) => Exited 1 st2
      | (None, st2) =>
          match setSemVerTags st2 with
          | (Some _, st3) => Exited 1 st3
          | (None, st3) => Returned tt st3
          end
      end
  end.

End Shell.

Arguments mkBuildState {Ext} _ _ _.
Arguments globals {Ext} _.
Arguments outside {Ext} _.
Arguments printed {Ext} _.

(** The state of a release target: the files, the outside, and what was
    printed and logged. *)
Record ReleaseState (Ext : Type) : Type := mkReleaseState {
  rfiles : gmap string bytes;
  routside : Ext;
  rprinted : list string;
  rlogged : list string
}.

Arguments mkReleaseState {Ext} _ _ _ _.
Arguments rfiles {Ext} _.
Arguments routside {Ext} _.
Arguments rprinted {Ext} _.
Arguments rlogged {Ext} _.

Section Release.

Variable Ext : Type.
Variable sh_Run : list string -> Ext -> option error * Ext.

(** Which file writes fail, [archiver.Archive] over the files,
    [sha256.Sum256], and the bytes of [%x]. *)
Variable write_fails : string -> option error.
Variable archive : list string -> string -> gmap string bytes ->
                   gmap string bytes * option error.
Variable Sum256 : bytes -> bytes.
Variable hex : bytes -> bytes.

(** [mg.Deps]: the targets named run first; when one of them fails the
    process ends. *)
Variable Deps : list string -> ReleaseState Ext -> Outcome unit (ReleaseState Ext).

Definition readFile (path : string) (files : gmap string bytes)
  : option bytes * option error :=
  match files !! path with
  | Some content => (Some content, None)
  | None => (None, Some (ErrNotExist "open" path))
  end.

Definition writeFile (path : string) (content : bytes) (files : gmap string bytes)
  : option error * gmap string bytes :=
  match write_fails path with
  | Some e => (Some e, files)
  | None => (None, <[path := content]> files)
  end.

(** [os.Remove]. *)
Definition remove (path : string) (files : gmap string bytes)
  : option error * gmap string bytes :=
  match files !! path with
  | Some _ => (None, delete path files)
  | None => (Some (ErrNotExist "remove" path), files)
  end.

(** The loop of [Release.Docker] over the tags. *)
Fixpoint tagAll (tags : list string) (x : Ext) : option error * Ext :=
  match tags with
  | [] => (None, x)
  | semverTag :: rest =>
      let '(err, x1) :=
        sh_Run [DockerEXE; "tag"; ProjectName; ProjectName +:+ ":" +:+ semverTag] x in
      match err with
      | Some e => (Some e, x1)
      | None => tagAll rest x1
      end
  end.

Definition Docker (tags : list string) (st : ReleaseState Ext)
  : Outcome (option error) (ReleaseState Ext) :=
  match Deps ["Release.Notices"; "Build.LinuxAmd64"] st with
  | Exited code st0 => Exited code st0
  | Returned _ st0 =>
      let out := rprinted st0 ++ ["Building docker container" +:+ nl] in
      match readFile "gorelease.Dockerfile" (rfiles st0) with
      | (_, Some e) =>
          Exited 1 (mkReleaseState (rfiles st0) (routside st0) out
                      (rlogged st0 ++ [error_string e]))
      | (bytesRead, None) =>
          match writeFile (Filepath.Join [DistFolder; "Dockerfile"])
                  (default [] bytesRead) (rfiles st0) with
          | (Some e, files1) =>
              Exited 1 (mkReleaseState files1 (routside st0) out
                          (rlogged st0 ++ [error_string e]))
          | (None, files1) =>
              let '(err, x1) :=
                sh_Run [DockerEXE; "build"; "-t"; ProjectName; DistFolder] (routside st0) in
              match err with
              | Some e => Returned (Some e) (mkReleaseState files1 x1 out (rlogged st0))
              | None =>
                  match remove (Filepath.Join [DistFolder; "Dockerfile"]) files1 with
                  | (Some e, files2) =>
                      Returned (Some e) (mkReleaseState files2 x1 out (rlogged st0))
                  | (None, files2) =>
                      let '(err, x2) := tagAll tags x1 in
                      Returned err (mkReleaseState files2 x2 out (rlogged st0))
                  end
              end
          end
      end
  end.

(** One turn of the loop of [Release.Archive]: archive, read the archive
    back, write its checksum; every error is logged and the turn goes
    on. *)
Definition archiveOne (buildTag : string) (architecture : Architecture)
    (st : ReleaseState Ext) : ReleaseState Ext :=
  let outputName := archiveOutputName buildTag architecture in
  let '(files1, err) :=
    archive [archiveSource buildTag architecture; "dist/notices"]
      (outputName +:+ ArchiveType architecture) (rfiles st) in
  let log1 :=
    match err with
    | Some e =>
        rlogged st ++
          ["Error archiving: " +:+ OS architecture +:+ Arch architecture +:+ ": "
             +:+ error_string e]
    | None => rlogged st
    end in
  let '(data, err) := readFile (outputName +:+ ArchiveType architecture) files1 in
  let log2 :=
    match err with
    | Some e =>
        log1 ++
          ["Error reading archive: " +:+ OS architecture +:+ Arch architecture +:+ ": "
             +:+ error_string e]
    | None => log1
    end in
  let checksum := Sum256 (default [] data) in
  let '(err, files2) :=
    writeFile (outputName +:+ "_checksum.sha256") (hex checksum) files1 in
  let log3 :=
    match err with
    | Some e =>
        log2 ++
          ["Error writing checksum: " +:+ OS architecture +:+ Arch architecture +:+ ": "
             +:+ error_string e]
    | None => log2
    end in
  mkReleaseState files2 (routside st) (rprinted st) log3.

Definition Archive (buildTag : string) (st : ReleaseState Ext)
  : Outcome (option error) (ReleaseState Ext) :=
  match Deps ["Release.Notices"; "Build.All"] st with
  | Exited code st0 => Exited code st0
  | Returned _ st0 =>
      let st1 := mkReleaseState (rfiles st0) (routside st0)
                   (rprinted st0 ++ ["Creating archives" +:+ nl]) (rlogged st0) in
      Returned None (fold_left (fun acc a => archiveOne buildTag a acc) arches st1)
  end.

End Release.

End Mage.

(** ** Concrete data for the rest of the code *)

(** A checkout three commits after the tag v1.2.3: [describe] answers,
    [describe --exact-match] fails. *)
Definition snapshotOutput (cmd : list string) (x : unit) : (string * option error) * unit :=
  match cmd with
  | [_; "describe"; "--tags"] => (("v1.2.3-3-gabc1234", None), x)
  | [_; "show"; _; _; _] => (("2021-06-01 12:00:00 +0000", None), x)
  | _ => (("", None), x)
  end.

Definition snapshotExec (cmd : list string) (x : unit)
  : (string * bool * option error) * unit :=
  (("", true, Some (Errorf "exit status 128")), x).

(** A checkout of the tag release-5, which is no semantic version. *)
Definition taggedOutput (cmd : list string) (x : unit) : (string * option error) * unit :=
  match cmd with
  | [_; "describe"; "--tags"] => (("release-5", None), x)
  | [_; "show"; _; _; _] => (("2021-06-01 12:00:00 +0000", None), x)
  | _ => (("", None), x)
  end.

Definition taggedExec (cmd : list string) (x : unit)
  : (string * bool * option error) * unit :=
  (("release-5", true, None), x).

(** A shell that records the commands it is given; [describe
    --exact-match] prints the tag v1.2.3. *)
Definition recordingOutput (cmd : list string) (x : list (list string))
  : (string * option error) * list (list string) :=
  (("", None), x ++ [cmd]).

Definition recordingExec (cmd : list string) (x : list (list string))
  : (string * bool * option error) * list (list string) :=
  (("v1.2.3", true, None), x ++ [cmd]).

(** A parser of versions that knows 1.2.3 only. *)
Definition demoNewVersion (v : string) : (Z * Z * Z) + error :=
  if String.eqb v "1.2.3" then inl (1%Z, 2%Z, 3%Z)
  else inr (Errorf (v +:+ " is not in dotted-tri format")).

Definition demoItoa (z : Z) : string :=
  match z with
  | 1%Z => "1"
  | 2%Z => "2"
  | 3%Z => "3"
  | _ => "0"
  end.

Definition demoParseTime (t : string) : Z + error := inl 1622548800%Z.

(** A docker daemon that refuses every command, with the commands it was
    given. *)
Definition failingRun (cmd : list string) (x : list (list string))
  : option error * list (list string) :=
  (Some (Errorf "exit status 1"), x ++ [cmd]).


Definition noDeps (targets : list string) (st : Mage.ReleaseState (list (list string)))
  : Mage.Outcome unit (Mage.ReleaseState (list (list string))) :=
  Mage.Returned tt st.

Definition dockerfileBytes : bytes := [Byte.x46; Byte.x52; Byte.x4f; Byte.x4d].

Definition releaseStart : Mage.ReleaseState (list (list string)) :=
  Mage.mkReleaseState {[ "gorelease.Dockerfile" := dockerfileBytes ]} [] [] [].

(** An archiver that fails and writes nothing. *)
Definition failingArchive (sources : list string) (dest : string)
    (files : gmap string bytes) : gmap string bytes * option error :=
  (files, Some (Errorf "file not found")).

(** An archiver that fails after it created the archive. *)
Definition partialArchive (sources : list string) (dest : string)
    (files : gmap string bytes) : gmap string bytes * option error :=
  (<[dest := [Byte.x1f; Byte.x8b]]> files, Some (Errorf "file not found")).

Definition linuxAmd64 : Mage.Architecture :=
  Mage.mkArchitecture "linux" "amd64" "" ".tar.gz".

(** A user table, a session store with one session, and a writer. *)
Definition aliceTable : gmap string Middleware.User :=
  {[ "alice" := Middleware.mkUser "alice" ]}.

Definition oneSession (request : Middleware.Request) (name : string)
  : option Middleware.loc * option error :=
  (Some 1, None).

Definition aliceSession : Middleware.Session :=
  Middleware.mkSession {[ "user" := Middleware.AString "alice" ]} false
    (Middleware.mkOptions false 0 0).

Definition brokenSession : Middleware.Session :=
  Middleware.mkSession {[ "user" := Middleware.ABool true ]} false
    (Middleware.mkOptions false 0 0).

Definition emptySession : Middleware.Session :=
  Middleware.mkSession ∅ true (Middleware.mkOptions false 0 0).

Definition sessionRequest (uri : string) : Middleware.Request :=
  Middleware.mkRequest uri uri
    {[ Middleware.contextSessionKey := Middleware.ASession (Some 1) ]}.

Definition cookieSave (s : Middleware.Session) (r : Middleware.Request)
    (w : list Writer.WriterCall) : list Writer.WriterCall * option error :=
  (w ++ [Writer.CallHeaderSet "Set-Cookie" "wiki"], None).

Definition noField (r : Middleware.Request) : string := "".

Definition demoRender (name : string) (status : nat)
    (args : Http.SessionArgs * string) (w : list Writer.WriterCall)
  : list Writer.WriterCall :=
  w ++ [Writer.CallWriteHeader status; Writer.CallWrite []].

Definition helloBody : bytes := [Byte.x68; Byte.x69].

(** A session with a pending error, and a request that carries both. *)
Definition flashSession : Middleware.Session :=
  Middleware.mkSession {[ "error" := Middleware.AString "no such page" ]} false
    (Middleware.mkOptions false 0 0).

Definition flashRequest : Middleware.Request :=
  Middleware.mkRequest "/view/home" "/view/home"
    {[ Middleware.contextSessionKey := Middleware.ASession (Some 1);
       Middleware.contextErrorKey := Middleware.AString "no such page" ]}.

(** A handler that answers 200 with a body, and one that answers 404
    with a body. *)
Definition helloProg : Http.Prog :=
  Http.DoWriteHeader 200 (Http.DoWrite helloBody (fun _ => Http.Done)).

Definition missingProg : Http.Prog :=
  Http.DoWriteHeader 404 (Http.DoWrite helloBody (fun _ => Http.Done)).

(** A handler that answers as [http.NotFound] does, header fields first;
    and one that writes 404 and then 200 with a body. *)
Definition plainNotFoundProg : Http.Prog :=
  Http.DoHeaderSet "Content-Type" "text/plain; charset=utf-8"
    (Http.DoHeaderSet "X-Content-Type-Options" "nosniff"
       (Http.DoWriteHeader 404 (Http.DoWrite helloBody (fun _ => Http.Done)))).

Definition retractedProg : Http.Prog :=
  Http.DoWriteHeader 404
    (Http.DoWriteHeader 200 (Http.DoWrite helloBody (fun _ => Http.Done))).

Definition noRedirect (url : string) (code : nat) : Http.Prog := Http.Done.

Definition snapshotStart : Mage.BuildState unit :=
  Mage.mkBuildState Mage.initialGlobals tt [].

(** * Properties *)

(** ** The definitions at work *)

Example Join_config :
  Filepath.Join ["/data"; ".wiki"; "users.json.enc"] = "/data/.wiki/users.json.enc".
Proof. reflexivity. Qed.

Example Join_escape :
  Filepath.Join ["/data"; ".wiki"; "../x.json.enc"] = "/data/x.json.enc".
Proof. reflexivity. Qed.

Example Clean_dots : Filepath.Clean "a//b/./c/../../d" = "a/d".
Proof. reflexivity. Qed.

Example ToLower_view : Middleware.ToLowerASCII "/View/Home_1" = "/view/home_1".
Proof. reflexivity. Qed.

Example nine_route_prefixes : length Middleware.routePrefixes = 9.
Proof. reflexivity. Qed.

Example resolve_home : Resolver.resolve "Home" Resolver.Pages = inr "pages/home".
Proof. reflexivity. Qed.

Example resolve_secret : Resolver.resolve "../secret" Resolver.Pages = inl PathError.
Proof. reflexivity. Qed.

(** ** Paths *)

Section FilepathProperties.

Import Filepath.

Lemma append_cons (c : ascii) (a b : string) :
  String c a +:+ b = String c (a +:+ b).
Proof. reflexivity. Qed.

Lemma append_nil_l (b : string) : "" +:+ b = b.
Proof. reflexivity. Qed.

Lemma append_nil_r (a : string) : a +:+ "" = a.
Proof. induction a as [|c a IH]; [reflexivity |]. by rewrite append_cons, IH. Qed.

Lemma append_assoc (a b c : string) : (a +:+ b) +:+ c = a +:+ (b +:+ c).
Proof.
  induction a as [|x a IH]; [reflexivity |]. by rewrite !append_cons, IH.
Qed.

Lemma segments_nonempty (s : string) : segments s <> [].
Proof.
  induction s as [|c s IH]; simpl; [discriminate |].
  destruct (is_sep c); [discriminate |]. by destruct (segments s).
Qed.

Lemma segments_app_sep (a b : string) :
  segments (a +:+ "/" +:+ b) = segments a ++ segments b.
Proof.
  induction a as [|c a IH].
  - reflexivity.
  - rewrite append_cons. simpl. rewrite IH.
    destruct (is_sep c); [reflexivity |].
    pose proof (segments_nonempty a). by destruct (segments a).
Qed.

Lemma segments_no_sep (s : string) : contains_sep s = false -> segments s = [s].
Proof.
  induction s as [|c s IH]; simpl; [reflexivity |].
  intros [Hc Hs]%orb_false_iff. rewrite Hc, (IH Hs). reflexivity.
Qed.

Lemma segments_fields (s : string) : Forall (fun f => contains_sep f = false) (segments s).
Proof.
  induction s as [|c s IH]; simpl.
  - by constructor.
  - destruct (is_sep c) eqn:Hc; [by constructor |].
    destruct (segments s) as [|h t]; [by repeat constructor; simpl; rewrite Hc |].
    inversion IH; subst. constructor; [| done]. simpl. by rewrite Hc.
Qed.

Lemma contains_sep_app (a b : string) :
  contains_sep (a +:+ b) = contains_sep a || contains_sep b.
Proof.
  induction a as [|c a IH]; [reflexivity |].
  rewrite append_cons. simpl. by rewrite IH, orb_assoc.
Qed.

Lemma join_sep_cons (x y : string) (l : list string) :
  join_sep (x :: y :: l) = x +:+ "/" +:+ join_sep (y :: l).
Proof. reflexivity. Qed.

Lemma segments_join_sep (l : list string) :
  l <> [] -> Forall (fun f => contains_sep f = false) l -> segments (join_sep l) = l.
Proof.
  induction l as [|x l IH]; intros Hne Hall; [done |].
  inversion Hall as [|? ? Hx Hl]; subst.
  destruct l as [|y l].
  - simpl. by apply segments_no_sep.
  - rewrite join_sep_cons, segments_app_sep, (segments_no_sep x Hx), IH; done.
Qed.

Lemma join_sep_snoc (l : list string) (x : string) :
  l <> [] -> join_sep (l ++ [x]) = join_sep l +:+ "/" +:+ x.
Proof.
  induction l as [|a l IH]; intros Hne; [done |].
  destruct l as [|b l]; [reflexivity |].
  change ((a :: b :: l) ++ [x]) with (a :: b :: (l ++ [x])).
  rewrite !join_sep_cons. change (b :: l ++ [x]) with ((b :: l) ++ [x]).
  rewrite IH by done. by rewrite !append_assoc.
Qed.

Lemma clean_step_plain (r : bool) (out : list string) (x : string) :
  plain x = true -> clean_step r out x = x :: out.
Proof.
  unfold plain, clean_step. intros H.
  destruct (String.eqb x ""); [discriminate |].
  destruct (String.eqb x "."); [discriminate |].
  by destruct (String.eqb x "..").
Qed.

Lemma fold_clean_plain (r : bool) (l out : list string) :
  Forall (fun x => plain x = true) l ->
  fold_left (clean_step r) l out = rev l ++ out.
Proof.
  revert out. induction l as [|x l IH]; intros out Hall; [reflexivity |].
  inversion Hall; subst. simpl. rewrite clean_step_plain by done.
  rewrite IH by done. by rewrite <- app_assoc.
Qed.

Lemma clean_segs_app_plain (r : bool) (a l : list string) :
  Forall (fun x => plain x = true) l ->
  clean_segs r (a ++ l) = clean_segs r a ++ l.
Proof.
  intros Hall. unfold clean_segs.
  rewrite fold_left_app, fold_clean_plain by done.
  by rewrite rev_app_distr, rev_involutive.
Qed.

Lemma clean_segs_skip_empty (r : bool) (l : list string) :
  clean_segs r ("" :: l) = clean_segs r l.
Proof. reflexivity. Qed.

Lemma repeat_snoc (x : string) (k : nat) : repeat x k ++ [x] = x :: repeat x k.
Proof. induction k as [|k IH]; [reflexivity |]. simpl. by rewrite IH. Qed.

Lemma rev_repeat_same (x : string) (k : nat) : rev (repeat x k) = repeat x k.
Proof.
  induction k as [|k IH]; [reflexivity |]. simpl. by rewrite IH, repeat_snoc.
Qed.

Lemma clean_stack_nil (r : bool) : clean_stack r [].
Proof. exists [], 0. repeat split; by constructor. Qed.

Lemma clean_step_stack (r : bool) (out : list string) (seg : string) :
  clean_stack r out -> clean_stack r (clean_step r out seg).
Proof.
  intros (names & k & -> & Hnames & Hk).
  destruct (plain seg) eqn:Hplain.
  { rewrite clean_step_plain by done. exists (seg :: names), k.
    repeat split; [| done]. by constructor. }
  unfold clean_step.
  destruct (String.eqb_spec seg ""); [by exists names, k |].
  destruct (String.eqb_spec seg "."); [by exists names, k |].
  destruct (String.eqb_spec seg "..") as [-> |Hdd].
  2:{ unfold plain in Hplain.
      apply String.eqb_neq in n, n0, Hdd. by rewrite n, n0, Hdd in Hplain. }
  destruct names as [|top names]; simpl.
  - destruct k as [|k]; simpl.
    + destruct r; [by apply clean_stack_nil |]. by exists [], 1.
    + exists [], (S (S k)). repeat split; [by constructor |].
      intros ->. by specialize (Hk eq_refl).
  - inversion Hnames as [|? ? Htop Hrest]; subst.
    destruct (String.eqb_spec top "..") as [-> | _]; [discriminate |].
    by exists names, k.
Qed.

Lemma fold_clean_stack (r : bool) (l out : list string) :
  clean_stack r out -> clean_stack r (fold_left (clean_step r) l out).
Proof.
  revert out. induction l as [|x l IH]; intros out H; [done |].
  simpl. by apply IH, clean_step_stack.
Qed.

Lemma fold_clean_dotdots (k j : nat) :
  fold_left (clean_step false) (repeat ".." k) (repeat ".." j) = repeat ".." (k + j).
Proof.
  revert j. induction k as [|k IH]; intros j; [reflexivity |].
  simpl. replace (clean_step false (repeat ".." j) "..") with (repeat ".." (S j)).
  - rewrite IH. by replace (k + S j) with (S (k + j)) by lia.
  - by destruct j.
Qed.

Lemma clean_stack_fixed (r : bool) (out : list string) :
  clean_stack r out -> fold_left (clean_step r) (rev out) [] = out.
Proof.
  intros (names & k & -> & Hnames & Hk).
  rewrite rev_app_distr, rev_repeat_same, fold_left_app.
  assert (fold_left (clean_step r) (repeat ".." k) [] = repeat ".." k) as ->.
  { destruct r.
    - by rewrite (Hk eq_refl).
    - pose proof (fold_clean_dotdots k 0) as H. simpl in H. rewrite H.
      by replace (k + 0) with k by lia. }
  rewrite fold_clean_plain, rev_involutive; [done |].
  by apply List.Forall_rev.
Qed.

(** Cleaning twice is cleaning once. *)
Lemma clean_segs_idempotent (r : bool) (l : list string) :
  clean_segs r (clean_segs r l) = clean_segs r l.
Proof.
  unfold clean_segs. f_equal. apply clean_stack_fixed, fold_clean_stack, clean_stack_nil.
Qed.

Lemma clean_step_fields (r : bool) (out : list string) (seg : string) :
  Forall (fun f => contains_sep f = false) out -> contains_sep seg = false ->
  Forall (fun f => contains_sep f = false) (clean_step r out seg).
Proof.
  intros Hout Hseg. unfold clean_step.
  destruct (String.eqb seg ""); [done |].
  destruct (String.eqb seg "."); [done |].
  destruct (String.eqb seg "..").
  - destruct out as [|top below].
    + destruct r; by repeat constructor.
    + inversion Hout; subst. destruct (String.eqb top ".."); by repeat constructor.
  - by constructor.
Qed.

Lemma fold_clean_fields (r : bool) (l out : list string) :
  Forall (fun f => contains_sep f = false) out ->
  Forall (fun f => contains_sep f = false) l ->
  Forall (fun f => contains_sep f = false) (fold_left (clean_step r) l out).
Proof.
  revert out. induction l as [|x l IH]; intros out Hout Hl; [done |].
  inversion Hl; subst. simpl. by apply IH; [apply clean_step_fields |].
Qed.

Lemma elements_fields (s : string) :
  Forall (fun f => contains_sep f = false) (elements s).
Proof.
  unfold elements, clean_segs. apply List.Forall_rev, fold_clean_fields.
  - constructor.
  - apply segments_fields.
Qed.

Lemma plain_nonempty (x : string) : plain x = true -> x <> "".
Proof. by intros H ->. Qed.

Lemma clean_stack_nonempty (r : bool) (out : list string) :
  clean_stack r out -> Forall (fun x => x <> "") out.
Proof.
  intros (names & k & -> & Hnames & _). apply List.Forall_app. split.
  - eapply List.Forall_impl; [| exact Hnames]. apply plain_nonempty.
  - clear. induction k as [|k IH]; simpl; by constructor.
Qed.

Lemma elements_nonempty (s : string) : Forall (fun x => x <> "") (elements s).
Proof.
  unfold elements, clean_segs. apply List.Forall_rev.
  eapply clean_stack_nonempty, fold_clean_stack, clean_stack_nil.
Qed.

Lemma IsAbs_join_sep (x : string) (l : list string) :
  x <> "" -> contains_sep x = false -> IsAbs (join_sep (x :: l)) = false.
Proof.
  intros Hne Hsep. destruct x as [|c x]; [done |].
  simpl in Hsep. apply orb_false_iff in Hsep as [Hc _].
  destruct l; simpl; by rewrite ?append_cons.
Qed.

(** The elements of a cleaned path are those of the path. *)
Lemma elements_Clean (s : string) : elements (Clean s) = elements s.
Proof.
  pose proof (elements_fields s) as Hfields.
  pose proof (elements_nonempty s) as Hne.
  pose proof (clean_segs_idempotent (IsAbs s) (segments s)) as Hidem.
  unfold Clean. fold (elements s) in *. unfold elements at 1.
  destruct (IsAbs s) eqn:Habs; unfold render.
  - change ("/" +:+ join_sep (elements s)) with (String "/" (join_sep (elements s))).
    simpl IsAbs. change (is_sep "/") with true. simpl segments.
    change (is_sep "/") with true. cbv iota. rewrite clean_segs_skip_empty.
    destruct (elements s) as [|x l] eqn:E; [reflexivity |].
    by rewrite segments_join_sep.
  - destruct (elements s) as [|x l] eqn:E; [reflexivity |].
    inversion Hne; subst. inversion Hfields; subst.
    rewrite IsAbs_join_sep by done. by rewrite segments_join_sep.
Qed.

Lemma is_name_plain (x : string) : is_name x = true -> plain x = true.
Proof. unfold is_name. by intros [? _]%andb_true_iff. Qed.

Lemma is_name_no_sep (x : string) : is_name x = true -> contains_sep x = false.
Proof. unfold is_name. intros [_ H]%andb_true_iff. by apply negb_true_iff. Qed.

Lemma IsAbs_app (s t : string) : s <> "" -> IsAbs (s +:+ t) = IsAbs s.
Proof. by destruct s. Qed.

Lemma elements_empty : elements "" = [].
Proof. reflexivity. Qed.

(** Appending names to a path appends them to its elements. *)
Lemma elements_app_names (s t : string) (names : list string) :
  segments t = names -> Forall (fun x => plain x = true) names ->
  elements (s +:+ "/" +:+ t) = elements s ++ names.
Proof.
  intros Hsplit Hnames. unfold elements.
  rewrite segments_app_sep, Hsplit, clean_segs_app_plain by done.
  destruct s as [|c s]; [reflexivity |].
  by rewrite IsAbs_app.
Qed.

Lemma elements_snoc_name (s x : string) :
  is_name x = true -> elements (s +:+ "/" +:+ x) = elements s ++ [x].
Proof.
  intros Hx. apply elements_app_names.
  - by apply segments_no_sep, is_name_no_sep.
  - repeat constructor. by apply is_name_plain.
Qed.

Lemma render_snoc (r : bool) (l : list string) (x : string) :
  l <> [] -> render r (l ++ [x]) = render r l +:+ "/" +:+ x.
Proof.
  intros Hne. unfold render. rewrite join_sep_snoc by done.
  destruct r; [by rewrite append_assoc |].
  destruct l; [done |]. by destruct (_ ++ _) eqn:E; [destruct l; discriminate |].
Qed.

(** A name appended to a path that has elements stays as it is under
    [Clean]. *)
Lemma Clean_snoc_name (s x : string) :
  elements s <> [] -> is_name x = true ->
  Clean (s +:+ "/" +:+ x) = Clean s +:+ "/" +:+ x.
Proof.
  intros Hne Hx. unfold Clean.
  assert (s <> "") as Hs by (intros ->; by apply Hne).
  fold (elements (s +:+ "/" +:+ x)). fold (elements s).
  rewrite elements_snoc_name, IsAbs_app by done.
  by apply render_snoc.
Qed.

Lemma length_append (a b : string) :
  String.length (a +:+ b) = String.length a + String.length b.
Proof.
  induction a as [|c a IH]; [reflexivity |]. rewrite append_cons. simpl. by rewrite IH.
Qed.

Lemma append_inj_r (a b c : string) : a +:+ c = b +:+ c -> a = b.
Proof.
  revert b. induction a as [|x a IH]; intros [|y b] H.
  - reflexivity.
  - apply (f_equal String.length) in H. rewrite !length_append in H. simpl in H. lia.
  - apply (f_equal String.length) in H. rewrite !length_append in H. simpl in H. lia.
  - rewrite !append_cons in H. injection H as -> H. f_equal. by apply IH.
Qed.

(** The file name of a configuration blob is a name whenever the
    configuration name has no separator. *)
Lemma config_file_is_name (name : string) :
  contains_sep name = false -> is_name (name +:+ ".json.enc") = true.
Proof.
  intros Hsep. unfold is_name, plain.
  rewrite contains_sep_app, Hsep.
  assert (forall t, String.length t < 9 -> String.eqb (name +:+ ".json.enc") t = false)
    as Hshort.
  { intros t Ht. apply String.eqb_neq. intros E.
    apply (f_equal String.length) in E. rewrite length_append in E. simpl in E. lia. }
  rewrite !Hshort by (simpl; lia). reflexivity.
Qed.

Lemma config_file_nonempty (name : string) : nonempty (name +:+ ".json.enc") = true.
Proof. by destruct name. Qed.

Lemma Join_cons_nonempty (e : string) (rest : list string) :
  nonempty e = true -> Join (e :: rest) = Clean (join_sep (e :: rest)).
Proof. intros H. simpl. by rewrite H. Qed.

Lemma Join_cons_empty (rest : list string) : Join ("" :: rest) = Join rest.
Proof. reflexivity. Qed.

Lemma nonempty_false (s : string) : nonempty s = false -> s = "".
Proof.
  unfold nonempty. intros H%negb_false_iff. by apply String.eqb_eq.
Qed.

Lemma clean_step_no_dotdot (r : bool) (out : list string) (x : string) :
  x <> ".." -> clean_step r out x = if plain x then x :: out else out.
Proof.
  intros Hx. unfold clean_step, plain.
  destruct (String.eqb x ""); [reflexivity |].
  destruct (String.eqb x "."); [reflexivity |].
  by destruct (String.eqb_spec x "..").
Qed.

Lemma fold_clean_no_dotdot (r : bool) (l out : list string) :
  ~ In ".." l ->
  fold_left (clean_step r) l out = rev (List.filter plain l) ++ out.
Proof.
  revert out. induction l as [|x l IH]; intros out Hno; [reflexivity |].
  simpl. rewrite clean_step_no_dotdot by (intros ->; apply Hno; by left).
  rewrite IH by (intros H; apply Hno; by right).
  destruct (plain x); [| reflexivity]. simpl. by rewrite <- app_assoc.
Qed.

(** Elements without a step upwards are kept, but for "" and ".". *)
Lemma clean_segs_app_no_dotdot (r : bool) (a l : list string) :
  ~ In ".." l -> clean_segs r (a ++ l) = clean_segs r a ++ List.filter plain l.
Proof.
  intros Hno. unfold clean_segs.
  rewrite fold_left_app, fold_clean_no_dotdot by done.
  by rewrite rev_app_distr, rev_involutive.
Qed.

Lemma Clean_nonempty (s : string) : nonempty (Clean s) = true.
Proof.
  pose proof (elements_nonempty s) as Hne. unfold elements in Hne.
  unfold Clean, render. destruct (IsAbs s); [reflexivity |].
  destruct (clean_segs _ _) as [|x l]; [reflexivity |].
  inversion Hne; subst. destruct x as [|c x]; [done |].
  by destruct l.
Qed.

Lemma filter_plain_all (l : list string) :
  Forall (fun x => plain x = true) (List.filter plain l).
Proof.
  apply List.Forall_forall. by intros x [_ Hx]%filter_In.
Qed.

Lemma plain_not_dotdot (l : list string) :
  Forall (fun x => plain x = true) l -> ~ In ".." l.
Proof.
  intros Hall Hin. by apply (proj1 (List.Forall_forall _ _) Hall) in Hin.
Qed.

End FilepathProperties.

Section GitProperties.

Variables (Repo Page ReadCloser : Type).
Variable resolvePath : string -> string -> string * string * option error.
Variable pathAtRevision :
  gmap string bytes -> Repo -> string -> string ->
  string * option ReadCloser * option error.
Variable GetPageAt :
  Git.GitBackend -> string -> string -> Git.M Repo (option Page * option error).
Variable revision : string.

(** Unfolds the operations of the state monad down to functions on
    worlds. *)
Ltac run_world :=
  unfold Git.deferring, Git.call_pathAtRevision, Git.ReadFile, Git.RLock,
    Git.RUnlock, Git.bind, Git.emit, Git.get_world, Git.ret.

Lemma events_since_app (w : Git.World Repo) (es : list Git.Event) :
  Git.events_since w (Git.mkWorld (Git.files w) (Git.repo w) (Git.trace w ++ es)) = es.
Proof.
  unfold Git.events_since. simpl. by rewrite drop_app_length.
Qed.

(** What [GetConfig] does, step by step. *)
Lemma GetConfig_run (g : Git.GitBackend) (name : string) (w : Git.World Repo) :
  Git.GetConfig g name w =
    (match Git.files w !! Git.configPath g name with
     | Some content => (Some content, None)
     | None => (None, Some (ErrNotExist "open" (Git.configPath g name)))
     end,
     Git.mkWorld (Git.files w) (Git.repo w)
       (Git.trace w ++ [Git.EvReadFile (Git.configPath g name)])).
Proof.
  unfold Git.GetConfig. run_world. simpl.
  by destruct (Git.files w !! Git.configPath g name).
Qed.

(** What [GetFile] does, step by step. *)
Lemma GetFile_run (g : Git.GitBackend) (name : string) (w : Git.World Repo) :
  Git.GetFile resolvePath pathAtRevision revision g name w =
    let gitPath := snd (fst (resolvePath (Git.dir g) name)) in
    let '(_, b, err) := pathAtRevision (Git.files w) (Git.repo w) gitPath revision in
    (match err with
     | Some e => (None, Some e)
     | None => (b, None)
     end,
     Git.mkWorld (Git.files w) (Git.repo w)
       (Git.trace w ++
          [Git.EvRLock; Git.EvPathAtRevision gitPath revision; Git.EvRUnlock])).
Proof.
  unfold Git.GetFile. run_world.
  destruct (resolvePath (Git.dir g) name) as [[fsPath gitPath] rerr]. simpl.
  destruct (pathAtRevision (Git.files w) (Git.repo w) gitPath revision)
    as [[x b] [e|]]; simpl; by rewrite <- !app_assoc.
Qed.

(** C8. For every title, [GetPage] gives the same result, and does the
    same to the world, as [GetPageAt] at the symbolic tip "HEAD". *)
Theorem GetPage_is_GetPageAt_HEAD (g : Git.GitBackend) (title : string)
    (w : Git.World Repo) :
  Git.GetPage GetPageAt g title w = GetPageAt g title "HEAD" w /\
  fst (Git.GetPage GetPageAt g title w) = fst (GetPageAt g title "HEAD" w) /\
  snd (Git.GetPage GetPageAt g title w) = snd (GetPageAt g title "HEAD" w).
Proof.
  unfold Git.GetPage. repeat split; reflexivity.
Qed.

(** C1 (amended). [GetConfig] returns the stored bytes of the
    configuration file exactly as they are on disk, or the error of the
    read; it decrypts nothing. *)
Theorem GetConfig_returns_stored_bytes (g : Git.GitBackend) (name : string)
    (w : Git.World Repo) :
  fst (Git.GetConfig g name w) =
    match Git.files w !! Git.configPath g name with
    | Some blob => (Some blob, None)
    | None => (None, Some (ErrNotExist "open" (Git.configPath g name)))
    end.
Proof. by rewrite GetConfig_run. Qed.

(** C2 (amended). [GetFile] takes the shared lock first and gives it
    back last, so that its access to the repository is under the lock;
    [GetPage] does to the world what [GetPageAt] does; [GetConfig] reads
    its file and never touches the lock. *)
Theorem read_operations_locking (g : Git.GitBackend) (name : string)
    (w : Git.World Repo) :
  let ev := Git.events_since w
              (snd (Git.GetFile resolvePath pathAtRevision revision g name w)) in
  (Git.guarded_from 0 ev = true /\ Git.holds_after 0 ev = 0 /\
   head ev = Some Git.EvRLock /\ last ev = Some Git.EvRUnlock) /\
  snd (Git.GetPage GetPageAt g name w) = snd (GetPageAt g name "HEAD" w) /\
  Git.events_since w (snd (Git.GetConfig g name w)) =
    [Git.EvReadFile (Git.configPath g name)].
Proof.
  simpl. rewrite GetFile_run, GetConfig_run. simpl.
  destruct (pathAtRevision _ _ _ _) as [[x b] err]. simpl.
  rewrite !events_since_app. repeat split; reflexivity.
Qed.

Lemma configPath_in_metadataDir (g : Git.GitBackend) (name : string) :
  Filepath.contains_sep name = false ->
  Git.configPath g name = Git.metadataDir g +:+ "/" +:+ name +:+ ".json.enc".
Proof.
  intros Hsep. pose proof (config_file_is_name name Hsep) as Hname.
  unfold Git.configPath, Git.metadataDir.
  destruct (Filepath.nonempty (Git.dir g)) eqn:Hdir.
  - rewrite !Join_cons_nonempty by done.
    rewrite !join_sep_cons. simpl Filepath.join_sep.
    rewrite <- (append_assoc (Git.dir g) "/" (".wiki" +:+ "/" +:+ _)).
    rewrite <- (append_assoc (Git.dir g +:+ "/") ".wiki").
    rewrite (append_assoc (Git.dir g) "/" ".wiki").
    apply Clean_snoc_name; [| done].
    by rewrite elements_snoc_name; [destruct (Filepath.elements _) |].
  - rewrite (nonempty_false _ Hdir), !Join_cons_empty.
    rewrite !Join_cons_nonempty by done.
    rewrite join_sep_cons. simpl Filepath.join_sep.
    by apply Clean_snoc_name.
Qed.

(** C5 (amended). [GetConfig] reads one plain file, the one at
    [Join(dir, ".wiki", name + ".json.enc")]: the read is its only event,
    the repository is neither consulted nor changed. When the name has no
    path separator, that file lies directly in the metadata directory,
    under the name followed by ".json.enc", and different names have
    different files. *)
Theorem config_blob_is_plain_file (g : Git.GitBackend) (name : string)
    (w : Git.World Repo) :
  Git.GetConfig g name w =
    Git.ReadFile (Filepath.Join [Git.dir g; ".wiki"; name +:+ ".json.enc"]) w /\
  Git.events_since w (snd (Git.GetConfig g name w)) =
    [Git.EvReadFile (Git.configPath g name)] /\
  Git.files (snd (Git.GetConfig g name w)) = Git.files w /\
  Git.repo (snd (Git.GetConfig g name w)) = Git.repo w /\
  (forall w' : Git.World Repo, Git.files w' = Git.files w ->
     fst (Git.GetConfig g name w') = fst (Git.GetConfig g name w)) /\
  (Filepath.contains_sep name = false ->
     Git.configPath g name = Git.metadataDir g +:+ "/" +:+ name +:+ ".json.enc" /\
     forall name' : string, Filepath.contains_sep name' = false ->
       Git.configPath g name' = Git.configPath g name -> name' = name).
Proof.
  split; [reflexivity |]. rewrite GetConfig_run. unfold snd, fst.
  rewrite events_since_app. repeat split; try reflexivity.
  - intros w' Hfiles. by rewrite GetConfig_run, Hfiles.
  - by apply configPath_in_metadataDir.
  - intros name' Hsep' Heq.
    rewrite !configPath_in_metadataDir in Heq by done.
    apply (inj (String.append _)) in Heq. apply (inj (String.append _)) in Heq.
    by apply append_inj_r in Heq.
Qed.

End GitProperties.

(** C1 (counterexample). With a key under which decryption fails, the
    contract asks for a DecryptionError, but [GetConfig] hands out the raw
    stored bytes with a nil error. *)
Lemma GetConfig_raw_bytes_counterexample :
  ConfigCodec.get_contract (fun _ => None)
    (Git.files usersWorld !! Git.configPath dataBackend "users")
    = inl DecryptionError
  /\ fst (Git.GetConfig dataBackend "users" usersWorld) = (Some usersBlob, None).
Proof.
  rewrite GetConfig_run.
  change (Git.configPath dataBackend "users") with "/data/.wiki/users.json.enc".
  unfold usersWorld. simpl. rewrite lookup_singleton_eq. split; reflexivity.
Qed.

(** C2 (counterexample). [GetConfig] reads the file system while no shared
    lock is held. *)
Lemma GetConfig_unlocked_counterexample :
  Git.guarded_from 0
    (Git.events_since usersWorld (snd (Git.GetConfig dataBackend "users" usersWorld)))
  = false.
Proof.
  rewrite GetConfig_run. unfold snd. rewrite events_since_app. reflexivity.
Qed.

(** C5 (counterexample). The configuration name "../x" has its file
    outside the metadata directory: [GetConfig] reads "/data/x.json.enc". *)
Lemma configPath_escapes_counterexample :
  Git.metadataDir dataBackend = "/data/.wiki" /\
  Git.configPath dataBackend "../x" = "/data/x.json.enc" /\
  String.prefix "/data/.wiki/" (Git.configPath dataBackend "../x") = false /\
  Git.events_since usersWorld (snd (Git.GetConfig dataBackend "../x" usersWorld)) =
    [Git.EvReadFile "/data/x.json.enc"].
Proof.
  repeat split; reflexivity.
Qed.

(** C5 (witness). The blob "users" of the backend in "/data". *)
Lemma config_blob_is_plain_file_witness :
  Git.configPath dataBackend "users" = "/data/.wiki/users.json.enc" /\
  (forall name' : string, Filepath.contains_sep name' = false ->
     Git.configPath dataBackend name' = Git.configPath dataBackend "users" ->
     name' = "users").
Proof.
  apply (proj2 (proj2 (proj2 (proj2 (proj2
           (config_blob_is_plain_file unit dataBackend "users" usersWorld)))))).
  reflexivity.
Defined.

(** C7 (failing input). [GetFile] answers with what the revision accessor
    makes of the path it got from the resolver; the error of the resolver
    is not part of the answer. On the name "../secret" the resolver fails,
    and when the accessor succeeds on the empty path [GetFile] returns its
    content and a nil error. *)
Theorem GetFile_loses_resolvePath_error :
  (forall (Repo ReadCloser : Type)
      (resolvePath : string -> string -> string * string * option error)
      (pathAtRevision : gmap string bytes -> Repo -> string -> string ->
                        string * option ReadCloser * option error)
      (revision : string) (g : Git.GitBackend) (name : string) (w : Git.World Repo),
    fst (Git.GetFile resolvePath pathAtRevision revision g name w) =
      let gitPath := snd (fst (resolvePath (Git.dir g) name)) in
      let '(_, b, err) := pathAtRevision (Git.files w) (Git.repo w) gitPath revision in
      match err with
      | Some e => (None, Some e)
      | None => (b, None)
      end) /\
  resolvePath_model "/data" "../secret" = ("", "", Some (Errorf "invalid path")) /\
  fst (Git.GetFile resolvePath_model (fun _ _ _ _ => ("", Some usersBlob, None))
         "HEAD" dataBackend "../secret" usersWorld) = (Some usersBlob, None).
Proof.
  split; [| split; [reflexivity |]].
  - intros Repo ReadCloser resolvePath pathAtRevision revision g name w.
    rewrite GetFile_run. simpl.
    by destruct (pathAtRevision _ _ _ _) as [[x b] [e|]].
  - rewrite GetFile_run. reflexivity.
Qed.

Section MiddlewareProperties.

Import Middleware.

Lemma prefix_comparable (a b t : string) :
  String.prefix a t = true -> String.prefix b t = true ->
  String.prefix a b = true \/ String.prefix b a = true.
Proof.
  revert b t. induction a as [|c a IH]; intros b t Ha Hb.
  - left. by destruct b.
  - destruct b as [|d b]; [right; reflexivity |].
    destruct t as [|e t]; [discriminate |].
    simpl in *.
    destruct (ascii_dec c e) as [->|]; [| discriminate].
    destruct (ascii_dec d e) as [->|]; [| discriminate].
    destruct (ascii_dec e e) as [_|]; [| congruence].
    eauto.
Qed.

Lemma routePrefixes_antichain :
  forallb (fun p =>
    forallb (fun q => implb (String.prefix p q) (String.eqb p q)) routePrefixes)
    routePrefixes = true.
Proof. vm_compute. reflexivity. Qed.

(** No known prefix is a prefix of another: a path has at most one. *)
Lemma route_unique (target p q : string) :
  In p routePrefixes -> In q routePrefixes ->
  HasPrefix target p = true -> HasPrefix target q = true -> p = q.
Proof.
  intros Hp Hq Hpt Hqt. unfold HasPrefix in *.
  pose proof routePrefixes_antichain as Hall.
  rewrite forallb_forall in Hall.
  destruct (prefix_comparable _ _ _ Hpt Hqt) as [Hpq | Hqp].
  - specialize (Hall p Hp). rewrite forallb_forall in Hall.
    specialize (Hall q Hq). rewrite Hpq in Hall. simpl in Hall.
    by apply String.eqb_eq.
  - specialize (Hall q Hq). rewrite forallb_forall in Hall.
    specialize (Hall p Hp). rewrite Hqp in Hall. simpl in Hall.
    symmetry. by apply String.eqb_eq.
Qed.

Lemma routePrefixes_keys (aR aW : bool) :
  map fst (authEntries aR aW) = routePrefixes.
Proof. reflexivity. Qed.

(** [range] over the map visits the known prefixes, each once. *)
Lemma authRequirements_range (aR aW : bool) :
  (map_to_list (authRequirements aR aW)).*1 ≡ₚ routePrefixes.
Proof.
  unfold authRequirements. rewrite map_to_list_to_map.
  - reflexivity.
  - change ((authEntries aR aW).*1) with routePrefixes.
    apply NoDup_ListNoDup. repeat constructor; simpl; intuition discriminate.
Qed.

Section FindPrefix.

Variables (aR aW : bool) (target : string).

Lemma findPrefix_in_none (order : list string) :
  (forall p, In p order -> HasPrefix target p = false) ->
  findPrefix_in aR aW order target =
    (false, Some (Errorf ("unknown route: " +:+ target))).
Proof.
  induction order as [|i rest IH]; intros Hnone; [reflexivity |].
  simpl. rewrite (Hnone i) by (left; reflexivity).
  apply IH. intros p Hp. apply Hnone. by right.
Qed.

Lemma findPrefix_in_match (order : list string) (p : string) :
  (forall q, In q order -> In q routePrefixes) ->
  In p order -> In p routePrefixes -> HasPrefix target p = true ->
  findPrefix_in aR aW order target = (requiresAuth aR aW p, None).
Proof.
  induction order as [|i rest IH]; intros Hsub Hin Hp Hpre; [destruct Hin |].
  simpl. destruct (HasPrefix target i) eqn:Hi.
  - assert (i = p) as ->; [| reflexivity].
    apply (route_unique target); auto. apply Hsub. by left.
  - destruct Hin as [-> | Hin]; [congruence |].
    apply IH; auto. intros q Hq. apply Hsub. by right.
Qed.

End FindPrefix.

(** C9. Whatever the order in which the map yields its keys: a path
    with none of the nine known prefixes gets 404 and the next handler is
    not called; a path whose prefix requires authentication, in a request
    without user, gets 401 and the next handler is not called; any other
    request is passed to the next handler; and the answer is the same for
    every iteration order. *)
Theorem CheckAuthentication_outcome (aR aW : bool) (order : list string)
    (request : Request) :
  Permutation order routePrefixes ->
  ((forall p, In p routePrefixes -> HasPrefix (URLPath request) p = false) ->
     CheckAuthentication aR aW order request = [WriteHeader StatusNotFound]) /\
  (forall p, In p routePrefixes -> HasPrefix (URLPath request) p = true ->
     requiresAuth aR aW p = true -> getUserForRequest request = None ->
     CheckAuthentication aR aW order request = [WriteHeader StatusUnauthorized]) /\
  (forall p, In p routePrefixes -> HasPrefix (URLPath request) p = true ->
     requiresAuth aR aW p = false \/ is_Some (getUserForRequest request) ->
     CheckAuthentication aR aW order request = [ServeNext request]) /\
  (forall order', Permutation order' routePrefixes ->
     CheckAuthentication aR aW order' request =
     CheckAuthentication aR aW order request).
Proof.
  intros Hperm.
  assert (Hsub : forall o, Permutation o routePrefixes ->
                   forall q, In q o <-> In q routePrefixes).
  { intros o Ho q. split; intros Hq.
    - by apply (Permutation_in q Ho).
    - by apply (Permutation_in q (Permutation_sym Ho)). }
  assert (Hnone : forall o, Permutation o routePrefixes ->
            (forall p, In p routePrefixes -> HasPrefix (URLPath request) p = false) ->
            CheckAuthentication aR aW o request = [WriteHeader StatusNotFound]).
  { intros o Ho Hno. unfold CheckAuthentication.
    rewrite findPrefix_in_none; [reflexivity |].
    intros p Hp. apply Hno. by apply (Hsub o Ho). }
  assert (Hsome : forall o p, Permutation o routePrefixes ->
            In p routePrefixes -> HasPrefix (URLPath request) p = true ->
            CheckAuthentication aR aW o request =
              if requiresAuth aR aW p
              then match getUserForRequest request with
                   | None => [WriteHeader StatusUnauthorized]
                   | Some _ => [ServeNext request]
                   end
              else [ServeNext request]).
  { intros o p Ho Hp Hpre. unfold CheckAuthentication.
    rewrite (findPrefix_in_match aR aW _ _ p); auto.
    - intros q Hq. by apply (Hsub o Ho).
    - by apply (Hsub o Ho). }
  split; [by apply Hnone |]. split; [| split].
  - intros p Hp Hpre Hreq Huser. rewrite (Hsome order p); auto.
    by rewrite Hreq, Huser.
  - intros p Hp Hpre Hcase. rewrite (Hsome order p); auto.
    destruct Hcase as [-> | [u ->]]; [reflexivity |].
    by destruct (requiresAuth aR aW p).
  - intros order' Hperm'.
    destruct (existsb (HasPrefix (URLPath request)) routePrefixes) eqn:Hex.
    + apply existsb_exists in Hex as [p [Hp Hpre]].
      by rewrite (Hsome order' p), (Hsome order p).
    + assert (Hno : forall p, In p routePrefixes ->
                      HasPrefix (URLPath request) p = false).
      { intros p Hp. destruct (HasPrefix (URLPath request) p) eqn:E; [| done].
        assert (existsb (HasPrefix (URLPath request)) routePrefixes = true)
          by (apply existsb_exists; eauto).
        congruence. }
      by rewrite (Hnone order'), (Hnone order).
Qed.

(** C10. A request whose URI differs from its lower-case form is
    answered with the permanent redirect 308 to the lower-case URI and
    the next handler is not called; a request whose URI is its own
    lower-case form goes to the next handler unchanged. *)
Theorem LowerCaseCanonical_outcome (ToLower : string -> string) (request : Request) :
  StatusPermanentRedirect = 308 /\
  (ToLower (RequestURI request) <> RequestURI request ->
     LowerCaseCanonical ToLower request =
       [Redirect (ToLower (RequestURI request)) StatusPermanentRedirect]) /\
  (ToLower (RequestURI request) = RequestURI request ->
     LowerCaseCanonical ToLower request = [ServeNext request]).
Proof.
  unfold LowerCaseCanonical. split; [reflexivity |]. split; intros H.
  - apply String.eqb_neq in H. by rewrite H.
  - apply String.eqb_eq in H. by rewrite H.
Qed.

Section SessionProperties.

Variable ResponseWriter : Type.
Variable Save : Session -> Request -> ResponseWriter -> ResponseWriter * option error.

(** A failed save is written to the log and [putSessionKey] returns
    normally; it has no error result to give. *)
Lemma putSessionKey_logs_failed_save (w w' : ResponseWriter) (r : Request)
    (key : string) (value : any) (st : State) (l : loc) (s : Session) (e : error) :
  getSessionForRequest r = Some l -> heap st !! l = Some s ->
  Save (updated_session s key value) r w = (w', Some e) ->
  putSessionKey Save w r key value st =
    (w', mkState (<[l := updated_session s key value]> (heap st))
           (logged st ++ ["Unable to save session: " +:+ error_string e])).
Proof.
  intros Hl Hs Hsave. unfold putSessionKey. rewrite Hl, Hs.
  unfold updated_session in *. simpl.
  destruct (IsNew s); simpl in *; by rewrite Hsave.
Qed.

Lemma putSessionKey_saved (w w' : ResponseWriter) (r : Request)
    (key : string) (value : any) (st : State) (l : loc) (s : Session) :
  getSessionForRequest r = Some l -> heap st !! l = Some s ->
  Save (updated_session s key value) r w = (w', None) ->
  putSessionKey Save w r key value st =
    (w', mkState (<[l := updated_session s key value]> (heap st)) (logged st)).
Proof.
  intros Hl Hs Hsave. unfold putSessionKey. rewrite Hl, Hs.
  unfold updated_session in *. simpl.
  destruct (IsNew s); simpl in *; by rewrite Hsave.
Qed.

(** [clearSessionKey] discards the error of [Save]: nothing is logged. *)
Lemma clearSessionKey_logs_nothing (w : ResponseWriter) (r : Request)
    (key : string) (st : State) :
  logged (snd (clearSessionKey Save w r key st)) = logged st.
Proof.
  unfold clearSessionKey.
  destruct (getSessionForRequest r) as [l|]; [| reflexivity].
  destruct (heap st !! l) as [s|]; [| reflexivity].
  by destruct (Save _ r w).
Qed.

End SessionProperties.

End MiddlewareProperties.

Lemma unknown_route_has_no_prefix (p : string) :
  In p Middleware.routePrefixes -> Middleware.HasPrefix "/nope" p = false.
Proof.
  intros Hp. simpl in Hp.
  repeat (destruct Hp as [<- | Hp]; [reflexivity |]). destruct Hp.
Defined.

(** C9 (witness). The route table visited backwards, on an unknown path, on
    an edit without user and on an edit by a user. *)
Lemma CheckAuthentication_outcome_witness :
  Middleware.CheckAuthentication true true (rev Middleware.routePrefixes)
    (anonymousRequest "/nope") = [Middleware.WriteHeader 404] /\
  Middleware.CheckAuthentication true true (rev Middleware.routePrefixes)
    (anonymousRequest "/edit/home") = [Middleware.WriteHeader 401] /\
  Middleware.CheckAuthentication true true (rev Middleware.routePrefixes)
    (aliceRequest "/edit/home") = [Middleware.ServeNext (aliceRequest "/edit/home")] /\
  Middleware.CheckAuthentication true true Middleware.routePrefixes
    (aliceRequest "/edit/home") =
  Middleware.CheckAuthentication true true (rev Middleware.routePrefixes)
    (aliceRequest "/edit/home").
Proof.
  assert (Hperm : Permutation (rev Middleware.routePrefixes) Middleware.routePrefixes)
    by (symmetry; apply Permutation_rev).
  split; [| split; [| split]].
  - apply (proj1 (CheckAuthentication_outcome true true _
                    (anonymousRequest "/nope") Hperm)).
    exact unknown_route_has_no_prefix.
  - apply (proj1 (proj2 (CheckAuthentication_outcome true true _
                           (anonymousRequest "/edit/home") Hperm)) "/edit/").
    + simpl. tauto.
    + reflexivity.
    + vm_compute. reflexivity.
    + vm_compute. reflexivity.
  - apply (proj1 (proj2 (proj2 (CheckAuthentication_outcome true true _
                                  (aliceRequest "/edit/home") Hperm))) "/edit/").
    + simpl. tauto.
    + reflexivity.
    + right. vm_compute. eexists. reflexivity.
  - apply (proj2 (proj2 (proj2 (CheckAuthentication_outcome true true _
                                  (aliceRequest "/edit/home") Hperm)))).
    reflexivity.
Defined.

(** C10 (witness). A mixed-case URI is redirected, a lower-case one is
    served. *)
Lemma LowerCaseCanonical_outcome_witness :
  Middleware.LowerCaseCanonical Middleware.ToLowerASCII (anonymousRequest "/View/Home")
    = [Middleware.Redirect "/view/home" 308] /\
  Middleware.LowerCaseCanonical Middleware.ToLowerASCII (anonymousRequest "/view/home")
    = [Middleware.ServeNext (anonymousRequest "/view/home")].
Proof.
  split.
  - apply (proj1 (proj2 (LowerCaseCanonical_outcome Middleware.ToLowerASCII
                           (anonymousRequest "/View/Home")))).
    vm_compute. discriminate.
  - apply (proj2 (proj2 (LowerCaseCanonical_outcome Middleware.ToLowerASCII
                           (anonymousRequest "/view/home")))).
    reflexivity.
Defined.

(** ** The path resolver *)

Section ResolverProperties.

Import Filepath Resolver.

Lemma lower_ascii_sep (c : ascii) : is_sep (Middleware.lower_ascii c) = is_sep c.
Proof. destruct c as [[] [] [] [] [] [] [] []]; reflexivity. Qed.

Lemma segments_ToLower (s : string) :
  segments (Middleware.ToLowerASCII s) = map Middleware.ToLowerASCII (segments s).
Proof.
  induction s as [|c s IH]; [reflexivity |].
  simpl. rewrite lower_ascii_sep, IH.
  destruct (is_sep c); [reflexivity |].
  pose proof (segments_nonempty s). by destruct (segments s).
Qed.

Lemma has_segment_dotdot (name : string) :
  In ".." (segments name) -> has_segment ".." (normalize name) = true.
Proof.
  intros Hin. unfold has_segment, normalize. rewrite segments_ToLower.
  apply existsb_exists. exists "..". split; [| reflexivity].
  change ".." with (Middleware.ToLowerASCII ".."). by apply in_map.
Qed.

Lemma has_segment_false (seg name : string) :
  has_segment seg name = false -> ~ In seg (segments name).
Proof.
  unfold has_segment. intros Hex Hin.
  assert (existsb (String.eqb seg) (segments name) = true); [| congruence].
  apply existsb_exists. exists seg. split; [done |]. apply String.eqb_refl.
Qed.

Lemma namespaceRoot_elements (ns : Namespace) (n : string) :
  IsAbs (namespaceRoot ns +:+ "/" +:+ n) = false /\
  elements (namespaceRoot ns) = [namespaceRoot ns] /\
  plain (namespaceRoot ns) = true /\
  nonempty (namespaceRoot ns) = true.
Proof. by destruct ns. Qed.

(** What a successful resolution returns: the namespace root and the
    names of the logical name, joined. *)
Lemma resolve_inr (name : string) (ns : Namespace) (p : string) :
  resolve name ns = inr p ->
  exists rel : list string,
    rel <> [] /\ Forall (fun x => plain x = true) rel /\
    Forall (fun f => contains_sep f = false) rel /\
    p = join_sep rel /\ elements p = rel.
Proof.
  unfold resolve. set (n := normalize name).
  destruct (String.eqb n "") eqn:Hempty; [discriminate |].
  destruct (IsAbs n); [discriminate |].
  destruct (has_segment ".." n) eqn:Hdd; [discriminate |].
  destruct (has_segment metadataDir n); [discriminate |].
  intros Hres.
  assert (p = Join [namespaceRoot ns; n]) as -> by congruence. clear Hres.
  destruct (namespaceRoot_elements ns n) as (Habs & Hroot & Hplain & Hne).
  rewrite Join_cons_nonempty, join_sep_cons by done. simpl join_sep.
  set (x := namespaceRoot ns +:+ "/" +:+ n).
  assert (elements x = namespaceRoot ns :: List.filter plain (segments n)) as Hel.
  { unfold elements, x. rewrite Habs, segments_app_sep.
    rewrite clean_segs_app_no_dotdot by (by apply has_segment_false).
    fold (elements (namespaceRoot ns)) in Hroot.
    replace (clean_segs false (segments (namespaceRoot ns))) with [namespaceRoot ns];
      [reflexivity |].
    by destruct ns. }
  exists (elements x). repeat split.
  - by rewrite Hel.
  - rewrite Hel. constructor; [done | apply filter_plain_all].
  - apply elements_fields.
  - unfold Clean. fold (elements x). change (IsAbs x = false) in Habs.
    rewrite Habs. unfold render. rewrite Hel. reflexivity.
  - apply elements_Clean.
Qed.

(** C6. A logical name with a parent-directory segment is refused with
    PathError (the only error of the resolver), and a resolved path,
    joined onto any repository root, lies strictly inside that root. *)
Theorem resolve_confined (name : string) (ns : Namespace) :
  (In ".." (segments name) -> resolve name ns = inl PathError) /\
  (forall e : StoreError, resolve name ns = inl e -> e = PathError) /\
  (forall p : string, resolve name ns = inr p ->
     forall root : string, strictly_inside root (Join [root; p])).
Proof.
  split; [| split].
  - intros Hin. unfold resolve. rewrite (has_segment_dotdot name Hin).
    destruct (String.eqb _ _); [reflexivity |]. by destruct (IsAbs _).
  - unfold resolve. intros e.
    repeat (destruct (_ : bool); [by intros [= <-] |]). discriminate.
  - intros p Hres root.
    destruct (resolve_inr name ns p Hres) as (rel & Hne & Hplain & Hfields & Hp & Hel).
    exists rel. split; [done |]. split; [by apply plain_not_dotdot |].
    assert (nonempty p = true) as Hpne.
    { rewrite Hp. destruct rel as [|x l]; [done |].
      inversion Hplain; subst. destruct x as [|c x]; [done |]. by destruct l. }
    destruct (nonempty root) eqn:Hroot.
    + rewrite Join_cons_nonempty, join_sep_cons by done.
      simpl join_sep. rewrite elements_Clean.
      apply elements_app_names; [| done].
      rewrite Hp. by apply segments_join_sep.
    + rewrite (nonempty_false _ Hroot), Join_cons_empty.
      rewrite Join_cons_nonempty by done.
      simpl join_sep. by rewrite elements_Clean, Hel.
Qed.

End ResolverProperties.

(** C6 (witness). "../secret" is refused; "Home" resolves to a path
    strictly inside the root "/data". *)
Lemma resolve_confined_witness :
  Resolver.resolve "../secret" Resolver.Pages = inl PathError /\
  Resolver.strictly_inside "/data" (Filepath.Join ["/data"; "pages/home"]).
Proof.
  split.
  - apply (proj1 (resolve_confined "../secret" Resolver.Pages)).
    simpl. tauto.
  - apply (proj2 (proj2 (resolve_confined "Home" Resolver.Pages)) "pages/home").
    reflexivity.
Defined.

(** ** The commit writer *)

Section CommitProperties.

Import CommitWriter.

Variable stage_fails : string -> bool.
Variable write_fails : bool.
Variable revisionId :
  option string -> string -> string -> list (string * option bytes) -> string.

(** Staging touches the index only. *)
Lemma stage_keeps (paths : list string) (st : RepoState) :
  worktree (snd (stage stage_fails paths st)) = worktree st /\
  chain (snd (stage stage_fails paths st)) = chain st /\
  (fst (stage stage_fails paths st) = None \/
   fst (stage stage_fails paths st) = Some CommitError).
Proof.
  revert st. induction paths as [|p rest IH]; intros st; simpl.
  - auto.
  - destruct (stage_fails p); simpl; [auto |].
    destruct (IH (mkRepoState (worktree st)
                    (<[p := worktree st !! p]> (index st)) (chain st)))
      as (Hw & Hc & He).
    simpl in *. auto.
Qed.

(** Staging fails exactly when one of the paths fails to stage. *)
Lemma stage_result (paths : list string) (st : RepoState) :
  fst (stage stage_fails paths st) =
    if existsb stage_fails paths then Some CommitError else None.
Proof.
  revert st. induction paths as [|p rest IH]; intros st; simpl; [done |].
  destruct (stage_fails p); simpl; [done |]. apply IH.
Qed.

(** C3. A commit fails exactly when the staging of one of its paths or
    the write of the revision fails. When it fails the caller gets a
    CommitError and the repository is exactly as before: working copy,
    index, chain and tip. When nothing fails the chain grows by exactly
    the one new revision, whose parent is the old tip and which becomes
    the tip, and the working copy is as before. In every case the chain
    is the old one or the old one with the one revision returned. *)
Theorem commit_atomic (paths : list string) (author message : string) (now : nat)
    (st : RepoState) :
  let failed := existsb stage_fails paths || write_fails in
  let res := fst (commit stage_fails write_fails revisionId paths author message now st) in
  let st' := snd (commit stage_fails write_fails revisionId paths author message now st) in
  (failed = true -> res = inl CommitError /\ st' = st /\ tip st' = tip st) /\
  (failed = false ->
     exists r, res = inr r /\
       chain st' = r :: chain st /\ tip st' = Some (rev_id r) /\
       rev_parent r = tip st /\ rev_paths r = paths /\
       rev_author r = author /\ rev_message r = message /\
       worktree st' = worktree st) /\
  (chain st' = chain st \/ exists r, res = inr r /\ chain st' = r :: chain st).
Proof.
  simpl. unfold commit.
  destruct (stage_keeps paths st) as (Hw & Hc & _).
  pose proof (stage_result paths st) as Hres.
  destruct (stage stage_fails paths st) as [err st1]; simpl in *.
  assert (Hsame : unstage st st1 = st).
  { unfold unstage. rewrite Hw, Hc. by destruct st. }
  destruct (existsb stage_fails paths); subst err; simpl.
  - rewrite Hsame. repeat split; auto. discriminate.
  - destruct write_fails; simpl.
    + rewrite Hsame. repeat split; auto. discriminate.
    + unfold tip. rewrite Hc. split; [discriminate |]. split.
      * intros _. eexists. repeat split; done.
      * right. eexists. split; reflexivity.
Qed.

End CommitProperties.

(** ** The history walker *)

Section HistoryProperties.

Import HistoryWalker.

Variable path : string.









End HistoryProperties.

(** C3 (witness). The second of two paths fails to stage: the caller gets
    a CommitError and the repository is as before, the first path
    unstaged again. *)
Lemma commit_atomic_witness :
  CommitWriter.commit (String.eqb "pages/about") false demoRevisionId
    ["pages/home"; "pages/about"] "bob" "two pages" 2 editedRepo
  = (inl CommitError, editedRepo).
Proof.
  pose proof (proj1 (commit_atomic (String.eqb "pages/about") false demoRevisionId
                       ["pages/home"; "pages/about"] "bob" "two pages" 2 editedRepo)
                eq_refl) as (Hres & Hst & _).
  rewrite (surjective_pairing (CommitWriter.commit _ _ _ _ _ _ _ _)).
  by rewrite Hres, Hst.
Defined.


(** * More of the code *)

(** ** The session handler *)

Section SessionHandlerProperties.

Import Middleware Http.

Context {P : Type} `{UserProvider P}.

Variable up : P.
Variable storeGet : Request -> string -> option loc * option error.

Lemma getUser_WithValue_other (r : Request) (key : string) (v : any) :
  key <> contextUserKey ->
  getUserForRequest (WithValue r key v) = getUserForRequest r.
Proof.
  intros Hne. unfold getUserForRequest, WithValue. simpl.
  by rewrite lookup_insert_ne.
Qed.

Lemma getError_WithValue_other (r : Request) (key : string) (v : any) :
  key <> contextErrorKey ->
  getErrorForRequest (WithValue r key v) = getErrorForRequest r.
Proof.
  intros Hne. unfold getErrorForRequest, WithValue. simpl.
  by rewrite lookup_insert_ne.
Qed.

(** What the handler passes on, when the session is there and its user
    name, if any, is a string. *)
Lemma SessionHandler_run (heap : gmap loc Session) (request : Request)
    (l : loc) (e : option error) (s : Session) :
  storeGet request sessionName = (Some l, e) -> heap !! l = Some s ->
  (forall v, Values s !! sessionUserKey = Some v -> exists name, v = AString name) ->
  SessionHandler up storeGet heap request =
    Ok [ServeNext
          (WithValue
             (match Values s !! sessionErrorKey with
              | Some err => fun r => WithValue r contextErrorKey err
              | None => fun r => r
              end
                (match session_user up s with
                 | Some user => WithValue request contextUserKey (AUser (Some user))
                 | None => request
                 end))
             contextSessionKey (ASession (Some l)))].
Proof.
  intros Hget Hl Hname. unfold SessionHandler, session_user. rewrite Hget. simpl.
  rewrite Hl.
  destruct (Values s !! sessionUserKey) as [v|] eqn:Hv.
  - destruct (Hname v eq_refl) as [name ->].
    destruct (provideUser up name); by destruct (Values s !! sessionErrorKey).
  - by destruct (Values s !! sessionErrorKey).
Qed.

(** The request that the handler passes on. *)
Lemma SessionHandler_forwards (heap : gmap loc Session) (request : Request)
    (l : loc) (e : option error) (s : Session) :
  storeGet request sessionName = (Some l, e) -> heap !! l = Some s ->
  (forall v, Values s !! sessionUserKey = Some v -> exists name, v = AString name) ->
  exists request',
    SessionHandler up storeGet heap request = Ok [ServeNext request'] /\
    RequestURI request' = RequestURI request /\
    URLPath request' = URLPath request /\
    getSessionForRequest request' = Some l /\
    getUserForRequest request' =
      match session_user up s with
      | Some user => Some user
      | None => getUserForRequest request
      end /\
    Context request' !! contextErrorKey =
      match Values s !! sessionErrorKey with
      | Some err => Some err
      | None => Context request !! contextErrorKey
      end.
Proof.
  intros Hget Hl Hname. eexists. split; [by eapply SessionHandler_run |].
  destruct (session_user up s) as [user|];
    destruct (Values s !! sessionErrorKey) as [err|];
    unfold getSessionForRequest, getUserForRequest, WithValue; simpl;
    by simplify_map_eq.
Qed.

(** X1. With a session whose user name, if any, is a string, the handler
    passes the request on, whatever error [store.Get] reported; the
    request it passes on has the same URI and path, carries the session,
    carries the user the provider knows under the session's user name and
    otherwise the user it came with, and carries the session's error when
    there is one. *)
Theorem SessionHandler_context (heap : gmap loc Session) (request : Request)
    (l : loc) (e : option error) (s : Session) :
  storeGet request sessionName = (Some l, e) -> heap !! l = Some s ->
  (forall v, Values s !! sessionUserKey = Some v -> exists name, v = AString name) ->
  exists request',
    SessionHandler up storeGet heap request = Ok [ServeNext request'] /\
    RequestURI request' = RequestURI request /\
    URLPath request' = URLPath request /\
    getSessionForRequest request' = Some l /\
    getUserForRequest request' =
      match session_user up s with
      | Some user => Some user
      | None => getUserForRequest request
      end /\
    Context request' !! contextErrorKey =
      match Values s !! sessionErrorKey with
      | Some err => Some err
      | None => Context request !! contextErrorKey
      end.
Proof.
  intros Hget Hl Hname.
  destruct (SessionHandler_forwards heap request l e s Hget Hl Hname)
    as (request' & Hrun & Hfacts).
  exists request'. by split.
Qed.

(** X2. A session whose user entry is not a string makes the handler
    panic: nothing is passed on. *)
Theorem SessionHandler_panics (heap : gmap loc Session) (request : Request)
    (l : loc) (e : option error) (s : Session) (v : any) :
  storeGet request sessionName = (Some l, e) -> heap !! l = Some s ->
  Values s !! sessionUserKey = Some v -> (forall name, v <> AString name) ->
  exists msg, SessionHandler up storeGet heap request = Panic msg.
Proof.
  intros Hget Hl Hv Hnot. unfold SessionHandler. rewrite Hget. simpl.
  rewrite Hl, Hv. destruct v as [name | | |]; try by eexists.
  by destruct (Hnot name).
Qed.

Lemma CheckAuthentication_match (aR aW : bool) (order : list string)
    (request : Request) (p : string) :
  Permutation order routePrefixes -> In p routePrefixes ->
  HasPrefix (URLPath request) p = true ->
  CheckAuthentication aR aW order request =
    if requiresAuth aR aW p
    then match getUserForRequest request with
         | None => [Middleware.WriteHeader StatusUnauthorized]
         | Some _ => [ServeNext request]
         end
    else [ServeNext request].
Proof.
  intros Hperm Hp Hpre. unfold CheckAuthentication.
  rewrite (findPrefix_in_match aR aW _ _ p); auto.
  - intros q Hq. by apply (Permutation_in q Hperm).
  - by apply (Permutation_in p (Permutation_sym Hperm)).
Qed.

(** X3. The session handler in front of the authentication check, on a
    route that requires authentication: a session of a user the provider
    knows is passed through with that user; a session without known user,
    on a request that came without user, is answered 401. *)
Theorem SessionHandler_then_CheckAuthentication (aR aW : bool) (order : list string)
    (heap : gmap loc Session) (request : Request)
    (l : loc) (e : option error) (s : Session) (p : string) :
  storeGet request sessionName = (Some l, e) -> heap !! l = Some s ->
  (forall v, Values s !! sessionUserKey = Some v -> exists name, v = AString name) ->
  Permutation order routePrefixes -> In p routePrefixes ->
  HasPrefix (URLPath request) p = true -> requiresAuth aR aW p = true ->
  (forall user, session_user up s = Some user ->
     exists request',
       wrap (SessionHandler up storeGet heap request)
            (CheckAuthentication aR aW order) = Ok [ServeNext request'] /\
       getUserForRequest request' = Some user) /\
  (session_user up s = None -> getUserForRequest request = None ->
     wrap (SessionHandler up storeGet heap request)
          (CheckAuthentication aR aW order) =
       Ok [Middleware.WriteHeader StatusUnauthorized]).
Proof.
  intros Hget Hl Hname Hperm Hp Hpre Hreq.
  destruct (SessionHandler_forwards heap request l e s Hget Hl Hname)
    as (r' & Hrun & _ & Hpath & _ & Huser & _).
  rewrite Hrun. simpl. rewrite app_nil_r.
  rewrite (CheckAuthentication_match aR aW order r' p), Hreq by (by rewrite ?Hpath).
  split.
  - intros user Hu. rewrite Hu in Huser. rewrite Huser. eauto.
  - intros Hnone Hanon. rewrite Hnone, Hanon in Huser. by rewrite Huser.
Qed.

End SessionHandlerProperties.

(** ** Session keys and session arguments *)

Section SessionStateProperties.

Import Middleware Http.

Context {P : Type} `{UserProvider P}.

Variable up : P.
Variable storeGet : Request -> string -> option loc * option error.
Variable W : Type.
Variable Save : Session -> Request -> W -> W * option error.
Variable TemplateField : Request -> string.
Variable URLString : Request -> string.

Lemma putSessionKey_heap (w : W) (r : Request) (key : string) (value : any)
    (st : State) (l : loc) (s : Session) :
  getSessionForRequest r = Some l -> heap st !! l = Some s ->
  heap (snd (putSessionKey Save w r key value st)) =
    <[l := updated_session s key value]> (heap st) /\
  fst (putSessionKey Save w r key value st) =
    fst (Save (updated_session s key value) r w).
Proof.
  intros Hl Hs. unfold putSessionKey, updated_session. rewrite Hl, Hs. simpl.
  destruct (IsNew s); simpl; by destruct (Save _ r w) as [w' [e|]].
Qed.

Lemma clearSessionKey_heap (w : W) (r : Request) (key : string)
    (st : State) (l : loc) (s : Session) :
  getSessionForRequest r = Some l -> heap st !! l = Some s ->
  clearSessionKey Save w r key st =
    (fst (Save (mkSession (delete key (Values s)) (IsNew s) (SOptions s)) r w),
     mkState (<[l := mkSession (delete key (Values s)) (IsNew s) (SOptions s)]> (heap st))
       (logged st)).
Proof.
  intros Hl Hs. unfold clearSessionKey. rewrite Hl, Hs.
  by destruct (Save _ r w).
Qed.

(** X4. [putSessionKey] on a request with a session: afterwards the
    session holds the value under the key and every other key as before,
    a new session has the hardened cookie options and an old one keeps
    its own, the other sessions are untouched and the writer is the one
    [Save] left. On a request without session nothing changes. *)
Theorem putSessionKey_stores (w : W) (r : Request) (key : string) (value : any)
    (st : State) :
  (forall l s, getSessionForRequest r = Some l -> heap st !! l = Some s ->
     exists s',
       heap (snd (putSessionKey Save w r key value st)) !! l = Some s' /\
       Values s' !! key = Some value /\
       (forall k, k <> key -> Values s' !! k = Values s !! k) /\
       IsNew s' = IsNew s /\
       (IsNew s = true ->
          SOptions s' = mkOptions true SameSiteStrictMode 2678400) /\
       (IsNew s = false -> SOptions s' = SOptions s) /\
       (forall l', l' <> l ->
          heap (snd (putSessionKey Save w r key value st)) !! l' = heap st !! l') /\
       fst (putSessionKey Save w r key value st) = fst (Save s' r w)) /\
  (getSessionForRequest r = None -> putSessionKey Save w r key value st = (w, st)).
Proof.
  split.
  - intros l s Hl Hs.
    destruct (putSessionKey_heap w r key value st l s Hl Hs) as [Hheap Hw].
    exists (updated_session s key value). rewrite Hheap, Hw.
    unfold updated_session.
    destruct (IsNew s) eqn:Hnew; simpl; repeat split; try done;
      try (by rewrite lookup_insert_eq);
      try (intros; by rewrite lookup_insert_ne).
  - intros Hnone. unfold putSessionKey. by rewrite Hnone.
Qed.

(** X5. [clearSessionKey] on a request with a session: afterwards the
    key is gone from the session and every other key is as before, the
    other sessions are untouched, and nothing is logged even when [Save]
    fails. On a request without session nothing changes. *)
Theorem clearSessionKey_removes (w : W) (r : Request) (key : string) (st : State) :
  (forall l s, getSessionForRequest r = Some l -> heap st !! l = Some s ->
     exists s',
       heap (snd (clearSessionKey Save w r key st)) !! l = Some s' /\
       Values s' !! key = None /\
       (forall k, k <> key -> Values s' !! k = Values s !! k) /\
       IsNew s' = IsNew s /\ SOptions s' = SOptions s /\
       (forall l', l' <> l ->
          heap (snd (clearSessionKey Save w r key st)) !! l' = heap st !! l') /\
       logged (snd (clearSessionKey Save w r key st)) = logged st) /\
  (getSessionForRequest r = None -> clearSessionKey Save w r key st = (w, st)).
Proof.
  split.
  - intros l s Hl Hs. rewrite (clearSessionKey_heap w r key st l s Hl Hs). simpl.
    eexists. split; [by rewrite lookup_insert_eq |]. simpl.
    repeat split; try done.
    + by rewrite lookup_delete_eq.
    + intros k Hk. by rewrite lookup_delete_ne.
    + intros l' Hl'. by rewrite lookup_insert_ne.
  - intros Hnone. unfold clearSessionKey. by rewrite Hnone.
Qed.

(** X6. The session arguments of a request: editing is allowed exactly
    when the request carries a user; an empty error leaves writer and
    sessions alone; an error that is not empty is removed from the
    session of the request, the other keys staying. *)
Theorem getSessionArgs_error (w : W) (r : Request) (st : State) :
  let args := fst (getSessionArgs Save TemplateField URLString w r st) in
  let st' := snd (snd (getSessionArgs Save TemplateField URLString w r st)) in
  ArgsUser args = getUserForRequest r /\
  (CanEdit args = true <-> is_Some (getUserForRequest r)) /\
  Error args = getErrorForRequest r /\
  (getErrorForRequest r = "" ->
     snd (getSessionArgs Save TemplateField URLString w r st) = (w, st)) /\
  (forall l s, getErrorForRequest r <> "" ->
     getSessionForRequest r = Some l -> heap st !! l = Some s ->
     exists s',
       heap st' !! l = Some s' /\ Values s' !! sessionErrorKey = None /\
       forall k, k <> sessionErrorKey -> Values s' !! k = Values s !! k).
Proof.
  unfold getSessionArgs. simpl. repeat split.
  - intros Hb. by apply bool_decide_eq_true_1 in Hb.
  - intros Hu. by apply bool_decide_eq_true_2.
  - intros ->. reflexivity.
  - intros l s Hne Hl Hs. apply String.eqb_neq in Hne. rewrite Hne. simpl.
    rewrite (clearSessionKey_heap w r sessionErrorKey st l s Hl Hs). simpl.
    eexists. split; [by rewrite lookup_insert_eq |]. simpl. split.
    + by rewrite lookup_delete_eq.
    + intros k Hk. by rewrite lookup_delete_ne.
Qed.

(** X7. An error put into the session is shown once: the next request
    through the session handler has it in its session arguments, which
    removes it, and the request after that has none. *)
Theorem flash_error_shown_once (st0 : State) (w0 w1 w2 : W) (r0 r1 r2 : Request)
    (l : loc) (s0 : Session) (e : string) (e1 e2 : option error) :
  getSessionForRequest r0 = Some l -> heap st0 !! l = Some s0 ->
  (forall v, Values s0 !! sessionUserKey = Some v -> exists name, v = AString name) ->
  e <> "" ->
  storeGet r1 sessionName = (Some l, e1) ->
  storeGet r2 sessionName = (Some l, e2) ->
  Context r2 !! contextErrorKey = None ->
  let st1 := snd (putSessionKey Save w0 r0 sessionErrorKey (AString e) st0) in
  exists r1' r2',
    SessionHandler up storeGet (heap st1) r1 = Ok [ServeNext r1'] /\
    Error (fst (getSessionArgs Save TemplateField URLString w1 r1' st1)) = e /\
    let st2 := snd (snd (getSessionArgs Save TemplateField URLString w1 r1' st1)) in
    SessionHandler up storeGet (heap st2) r2 = Ok [ServeNext r2'] /\
    Error (fst (getSessionArgs Save TemplateField URLString w2 r2' st2)) = "" /\
    snd (getSessionArgs Save TemplateField URLString w2 r2' st2) = (w2, st2).
Proof.
  intros Hl0 Hs0 Hname Hne Hget1 Hget2 Hclean st1.
  destruct (putSessionKey_heap w0 r0 sessionErrorKey (AString e) st0 l s0 Hl0 Hs0)
    as [Hheap1 _]. fold st1 in Hheap1.
  set (s1 := updated_session s0 sessionErrorKey (AString e)) in *.
  assert (Hs1 : heap st1 !! l = Some s1) by (by rewrite Hheap1, lookup_insert_eq).
  assert (Hs1err : Values s1 !! sessionErrorKey = Some (AString e)).
  { unfold s1, updated_session. destruct (IsNew s0); simpl; by rewrite lookup_insert_eq. }
  assert (Hs1user : Values s1 !! sessionUserKey = Values s0 !! sessionUserKey).
  { unfold s1, updated_session. destruct (IsNew s0); simpl; by rewrite lookup_insert_ne. }
  destruct (SessionHandler_forwards up storeGet (heap st1) r1 l e1 s1 Hget1 Hs1)
    as (r1' & Hrun1 & _ & _ & Hsess1 & _ & Herr1).
  { intros v Hv. apply Hname. by rewrite <- Hs1user. }
  rewrite Hs1err in Herr1.
  assert (Hget_e : getErrorForRequest r1' = e).
  { unfold getErrorForRequest. by rewrite Herr1. }
  exists r1'.
  assert (Hst2 : snd (snd (getSessionArgs Save TemplateField URLString w1 r1' st1)) =
            mkState (<[l := mkSession (delete sessionErrorKey (Values s1))
                                (IsNew s1) (SOptions s1)]> (heap st1)) (logged st1)).
  { unfold getSessionArgs. simpl. rewrite Hget_e.
    apply String.eqb_neq in Hne. rewrite Hne. simpl.
    by rewrite (clearSessionKey_heap w1 r1' sessionErrorKey st1 l s1 Hsess1 Hs1). }
  set (s2 := mkSession (delete sessionErrorKey (Values s1)) (IsNew s1) (SOptions s1)) in *.
  set (st2 := snd (snd (getSessionArgs Save TemplateField URLString w1 r1' st1))) in *.
  assert (Hs2 : heap st2 !! l = Some s2) by (by rewrite Hst2; simpl; rewrite lookup_insert_eq).
  destruct (SessionHandler_forwards up storeGet (heap st2) r2 l e2 s2 Hget2 Hs2)
    as (r2' & Hrun2 & _ & _ & _ & _ & Herr2).
  { intros v Hv. apply Hname. rewrite <- Hs1user. unfold s2 in Hv. simpl in Hv.
    by rewrite lookup_delete_ne in Hv. }
  assert (Hnoerr : getErrorForRequest r2' = "").
  { unfold getErrorForRequest. rewrite Herr2. unfold s2. simpl.
    by rewrite lookup_delete_eq, Hclean. }
  exists r2'. split; [done |]. split; [done |]. simpl. split; [done |].
  unfold getSessionArgs. simpl. by rewrite Hnoerr.
Qed.

End SessionStateProperties.

(** ** The not-found interceptor *)

Section InterceptProperties.

Import Middleware Http.

Context {W : Type} `{Writer.ResponseWriter W}.

Variable Save : Session -> Request -> W -> W * option error.
Variable TemplateField : Request -> string.
Variable URLString : Request -> string.
Variable NotFound : string.
Variable renderTemplate : string -> nat -> SessionArgs * string -> W -> W.

(** As long as no status 404 is written the interceptor is not there. *)
Lemma intercept_transparent (prog : Prog) (w : W) (st : nat) :
  never404 prog -> st <> StatusNotFound ->
  realWriter (runProg prog (mkIntercept w st)) = runProg prog w /\
  status (runProg prog (mkIntercept w st)) <> StatusNotFound.
Proof.
  revert w st. induction prog as [| key value k IH | st' k IH | p k IH];
    intros w st Hnever Hst; simpl in *.
  - done.
  - by apply IH.
  - destruct Hnever as [Hst' Hk].
    apply Nat.eqb_neq in Hst'. rewrite Hst'. simpl.
    apply IH; [done |]. by apply Nat.eqb_neq.
  - apply Nat.eqb_neq in Hst. rewrite Hst. simpl.
    destruct (Writer.Write p w) as [res w'].
    apply IH; [done |]. by apply Nat.eqb_neq.
Qed.

(** Once the status is 404, and until another status is written, the
    body is swallowed: the real writer gets the header fields only. *)
Lemma intercept_swallows (prog : Prog) (w : W) :
  no_status prog ->
  runProg prog (mkIntercept w StatusNotFound) =
    mkIntercept (runProg (swallowed prog) w) StatusNotFound /\
  headers_only (swallowed prog).
Proof.
  revert w. induction prog as [| key value k IH | st' k IH | p k IH];
    intros w Hno; simpl in *.
  - done.
  - by apply IH.
  - done.
  - by apply IH.
Qed.

(** X8. For a handler that never writes the status 404, the writer behind
    the interceptor receives exactly the calls it would receive without
    it, and the interceptor does not end on 404. *)
Theorem interceptor_transparent (prog : Prog) (w : W) :
  never404 prog ->
  realWriter (runProg prog (mkIntercept w 0)) = runProg prog w /\
  status (runProg prog (mkIntercept w 0)) <> StatusNotFound.
Proof.
  intros Hnever. by apply intercept_transparent.
Qed.

(** X9. For a handler that writes the status 404 and then only header
    fields and body: the status and the body never reach the writer
    behind the interceptor, which gets the header fields alone, and every
    [Write] of the handler is told that all its bytes were written. *)
Theorem interceptor_hides_404 (body : Prog) (w : W) :
  no_status body ->
  runProg (DoWriteHeader StatusNotFound body) (mkIntercept w 0) =
    mkIntercept (runProg (swallowed body) w) StatusNotFound /\
  headers_only (swallowed body) /\
  (forall (p : bytes) (st : nat), st = StatusNotFound ->
     Writer.Write p (mkIntercept w st) = ((length p, None), mkIntercept w st)).
Proof.
  intros Hno. split; [| split].
  - simpl. by apply intercept_swallows.
  - by apply intercept_swallows.
  - by intros p st ->.
Qed.

(** The writer behind the interceptor gets the forwarded calls. *)
Lemma intercept_forwards (prog : Prog) (w : W) (st : nat) :
  realWriter (runProg prog (mkIntercept w st)) = runProg (forwarded prog st) w.
Proof.
  revert w st. induction prog as [| key value k IH | st' k IH | p k IH];
    intros w st; simpl.
  - done.
  - apply IH.
  - destruct (Nat.eqb st' StatusNotFound); simpl; apply IH.
  - destruct (Nat.eqb st StatusNotFound); simpl.
    + apply IH.
    + destruct (Writer.Write p w) as [res w']. apply IH.
Qed.

(** The status the interceptor holds in the end is the last one written. *)
Lemma intercept_ends (is404 : bool) (prog : Prog) (w : W) (st : nat) :
  ends_with is404 prog (Nat.eqb st StatusNotFound) ->
  Nat.eqb (status (runProg prog (mkIntercept w st))) StatusNotFound = is404.
Proof.
  revert w st. induction prog as [| key value k IH | st' k IH | p k IH];
    intros w st Hends; simpl in *.
  - done.
  - by apply IH.
  - destruct (Nat.eqb st' StatusNotFound) eqn:E; simpl; apply IH; simpl; by rewrite E.
  - destruct (Nat.eqb st StatusNotFound) eqn:E; simpl.
    + apply IH. simpl. by rewrite E.
    + destruct (Writer.Write p w) as [res w']. apply IH. simpl. by rewrite E.
Qed.

(** X10. [NotFoundHandler], for every handler. What reaches the client
    from the handler is its header fields, its statuses other than 404
    and the body it writes while its last status is not 404. The answer
    is replaced by the rendered not-found page, after the session
    arguments were taken (which removes a pending error from the
    session), when the status the interceptor holds in the end is 404,
    and is left alone otherwise. The interceptor ends on 404 for a handler
    whose last status is 404, also after header fields or other statuses;
    it does not for a handler whose last status is another one, also
    after a 404, or that writes none. In particular the answer of a
    handler that never writes 404 goes out as it is, and that of a
    handler that writes 404 and then only header fields and body is
    replaced. *)
Theorem NotFoundHandler_outcome (h : Request -> Prog) (w : W) (r : Request)
    (st : State) :
  let fake := runProg (h r) (mkIntercept w 0) in
  let sent := runProg (forwarded (h r) 0) w in
  realWriter fake = sent /\
  (status fake = StatusNotFound ->
     let args := fst (getSessionArgs Save TemplateField URLString sent r st) in
     let w1 := fst (snd (getSessionArgs Save TemplateField URLString sent r st)) in
     let st1 := snd (snd (getSessionArgs Save TemplateField URLString sent r st)) in
     NotFoundHandler Save TemplateField URLString NotFound renderTemplate h w r st =
       (renderTemplate NotFound StatusNotFound (args, "Page not found") w1, st1)) /\
  (status fake <> StatusNotFound ->
     NotFoundHandler Save TemplateField URLString NotFound renderTemplate h w r st =
       (sent, st)) /\
  (ends_with true (h r) false -> status fake = StatusNotFound) /\
  (ends_with false (h r) false -> status fake <> StatusNotFound) /\
  (never404 (h r) ->
     NotFoundHandler Save TemplateField URLString NotFound renderTemplate h w r st =
       (runProg (h r) w, st)) /\
  (forall body, h r = DoWriteHeader StatusNotFound body -> no_status body ->
     let w0 := runProg (swallowed body) w in
     let args := fst (getSessionArgs Save TemplateField URLString w0 r st) in
     let w1 := fst (snd (getSessionArgs Save TemplateField URLString w0 r st)) in
     let st1 := snd (snd (getSessionArgs Save TemplateField URLString w0 r st)) in
     NotFoundHandler Save TemplateField URLString NotFound renderTemplate h w r st =
       (renderTemplate NotFound StatusNotFound (args, "Page not found") w1, st1)).
Proof.
  cbv zeta. pose proof (intercept_forwards (h r) w 0) as Hsent.
  split; [done |]. split; [| split; [| split; [| split; [| split]]]].
  - intros Hstatus. unfold NotFoundHandler. rewrite Hstatus, Hsent. simpl.
    match goal with
    | |- context [if ?c then ?a else ?b] => by destruct (if c then a else b)
    end.
  - intros Hstatus. unfold NotFoundHandler.
    apply Nat.eqb_neq in Hstatus. by rewrite Hstatus, Hsent.
  - intros Hends. apply Nat.eqb_eq. by apply intercept_ends.
  - intros Hends. apply Nat.eqb_neq. by apply intercept_ends.
  - intros Hnever. unfold NotFoundHandler.
    destruct (intercept_transparent (h r) w 0 Hnever) as [Hreal Hstatus]; [done |].
    apply Nat.eqb_neq in Hstatus. by rewrite Hstatus, Hreal.
  - intros body Hh Hno. unfold NotFoundHandler. rewrite Hh.
    destruct (intercept_swallows body w Hno) as [Hrun _].
    simpl runProg. simpl in Hrun. rewrite Hrun. simpl.
    match goal with
    | |- context [if ?c then ?a else ?b] => by destruct (if c then a else b)
    end.
Qed.

(** X11. An unknown route behind the interceptor: the 404 of the
    authentication check ends in the rendered not-found page, whatever
    the next handler and the order of the route table. *)
Theorem unknown_route_renders_NotFound (aR aW : bool) (order : list string)
    (redirect : string -> nat -> Prog) (next : Request -> Prog)
    (w : W) (r : Request) (st : State) :
  Permutation order routePrefixes ->
  (forall p, In p routePrefixes -> HasPrefix (URLPath r) p = false) ->
  let h := fun request =>
    prog_of_actions redirect next (CheckAuthentication aR aW order request) in
  let args := fst (getSessionArgs Save TemplateField URLString w r st) in
  let w1 := fst (snd (getSessionArgs Save TemplateField URLString w r st)) in
  let st1 := snd (snd (getSessionArgs Save TemplateField URLString w r st)) in
  NotFoundHandler Save TemplateField URLString NotFound renderTemplate h w r st =
    (renderTemplate NotFound StatusNotFound (args, "Page not found") w1, st1).
Proof.
  intros Hperm Hnone h.
  assert (Hh : h r = DoWriteHeader StatusNotFound Done).
  { unfold h, CheckAuthentication. rewrite findPrefix_in_none; [reflexivity |].
    intros p Hp. apply Hnone. by apply (Permutation_in p Hperm). }
  unfold NotFoundHandler. rewrite Hh. simpl.
  match goal with
  | |- context [if ?c then ?a else ?b] => by destruct (if c then a else b)
  end.
Qed.

End InterceptProperties.

(** ** The size of a file in words *)

Section FormatBytesProperties.

Import Templates.

Local Open Scope Z_scope.

Lemma wrap64_small (z : Z) : (- (2 ^ 63) <= z < 2 ^ 63) -> wrap64 z = z.
Proof.
  intros Hz. unfold wrap64. rewrite Z.mod_small by lia. lia.
Qed.

Lemma pow1024_bound (q : Z) : 0 <= q -> 1024 ^ (q + 1) < 2 ^ 63 -> q <= 5.
Proof.
  intros Hq Hlt. destruct (Z_le_gt_dec q 5) as [|Hgt]; [done |].
  assert (1024 ^ 7 <= 1024 ^ (q + 1)) by (apply Z.pow_le_mono_r; lia).
  assert (2 ^ 63 < 1024 ^ 7) by reflexivity. lia.
Qed.

(** The loop stops on the power of 1024 that brackets the size, without
    any wrap-around on the way. *)
Lemma scale_brackets (size : Z) (n denominator power : Z) :
  size < 2 ^ 63 -> 0 <= power -> denominator = 1024 ^ (power + 1) ->
  denominator <= size -> n = size / denominator ->
  exists q, power <= q /\ scale n denominator power = (1024 ^ (q + 1), q) /\
            1024 ^ (q + 1) <= size < 1024 ^ (q + 2).
Proof.
  intros Hmax. funelim (scale n denominator power); intros Hp Hd Hle Hn.
  - (* one more turn *)
    clear Heq Heqcall. unfold multiple in *. specialize (H size Hmax).
    assert (0 < denominator) as Hpos by (subst denominator; apply Z.pow_pos_nonneg; lia).
    assert (denominator * 1024 <= size) as Hnext.
    { assert (1024 * denominator <= denominator * (size / denominator))
        by (subst n; nia).
      pose proof (Z.mul_div_le size denominator Hpos). lia. }
    assert (power <= 5) as Hp5.
    { apply pow1024_bound; [done |]. subst denominator. lia. }
    rewrite !(wrap64_small (denominator * 1024)) in H by lia.
    rewrite !(wrap64_small (power + 1)) in H by lia.
    rewrite (wrap64_small (denominator * 1024)) by lia.
    rewrite (wrap64_small (power + 1)) by lia.
    destruct H as (q & Hq & Hrun & Hbr).
    + lia.
    + subst denominator. replace (power + 1 + 1) with (Z.succ (power + 1)) by lia.
      rewrite Z.pow_succ_r by lia. lia.
    + done.
    + subst n. rewrite Z.quot_div_nonneg by (try apply Z.div_pos; lia).
      rewrite Z.div_div by lia. reflexivity.
    + exists q. split; [lia | done].
  - (* the loop ends *)
    clear Heq. unfold multiple in *. exists power. split; [lia |]. split; [by subst |].
    assert (0 < denominator) as Hpos by (subst denominator; apply Z.pow_pos_nonneg; lia).
    subst denominator. split; [done |].
    replace (power + 2) with (Z.succ (power + 1)) by lia.
    rewrite Z.pow_succ_r by lia.
    assert (size / 1024 ^ (power + 1) < 1024) as Hlt by lia.
    pose proof (Z.div_mod size (1024 ^ (power + 1)) ltac:(lia)) as Hdm.
    pose proof (Z.mod_pos_bound size (1024 ^ (power + 1)) Hpos) as Hmod.
    nia.
Qed.

(** X12. For every int64 size, [formatBytes] does not panic: below 1024
    (negative sizes too) the size is printed in bytes as it is; from 1024
    on, the size is divided by the power of 1024 that brackets it, which
    is computed without wrap-around, and the letter of the unit is taken
    inside "KMGTPE". *)
Theorem formatBytes_in_range (size : Z) :
  (- (2 ^ 63) <= size < 2 ^ 63) ->
  (size < 1024 -> formatBytes size = Ok (InBytes size)) /\
  (1024 <= size ->
     exists (q : Z) (unit : ascii),
       0 <= q <= 5 /\
       String.get (Z.to_nat q) "KMGTPE" = Some unit /\
       formatBytes size = Ok (Scaled size (1024 ^ (q + 1)) unit) /\
       1024 ^ (q + 1) <= size < 1024 ^ (q + 2)).
Proof.
  intros Hrange. unfold formatBytes, multiple. split.
  - intros Hsmall. apply Z.ltb_lt in Hsmall. by rewrite Hsmall.
  - intros Hbig. assert ((size <? 1024) = false) as -> by (apply Z.ltb_ge; lia).
    destruct (scale_brackets size (Z.quot size 1024) 1024 0) as (q & Hq & Hrun & Hbr);
      try done; try lia.
    { rewrite Z.quot_div_nonneg by lia. reflexivity. }
    unfold multiple in Hrun. rewrite Hrun.
    assert (q <= 5) as Hq5 by (apply pow1024_bound; lia).
    assert (exists unit, index "KMGTPE" q = Some unit /\
                         String.get (Z.to_nat q) "KMGTPE" = Some unit) as (unit & Hi & Hg).
    { assert (q = 0 \/ q = 1 \/ q = 2 \/ q = 3 \/ q = 4 \/ q = 5) as Hcases by lia.
      destruct Hcases as [-> | [-> | [-> | [-> | [-> | ->]]]]];
        eexists; split; reflexivity. }
    exists q, unit. rewrite Hi. repeat split; try done; lia.
Qed.

End FormatBytesProperties.

(** X12 (witness). One and a half kibibytes. *)
Lemma formatBytes_in_range_witness :
  exists (q : Z) (unit : ascii),
    (0 <= q <= 5)%Z /\
    String.get (Z.to_nat q) "KMGTPE" = Some unit /\
    Templates.formatBytes 1536 = Ok (Templates.Scaled 1536 (1024 ^ (q + 1)) unit) /\
    (1024 ^ (q + 1) <= 1536 < 1024 ^ (q + 2))%Z.
Proof.
  apply (proj2 (formatBytes_in_range 1536%Z ltac:(lia))). lia.
Defined.

(** ** The build file *)

Section BinaryNameProperties.

Import Filepath Mage.

Lemma binary_file_is_name (tag : string) (a : Architecture) :
  contains_sep (OS a) = false -> contains_sep (Arch a) = false ->
  contains_sep tag = false -> contains_sep (BinarySuffix a) = false ->
  is_name (binaryName tag a +:+ BinarySuffix a) = true.
Proof.
  intros Hos Harch Htag Hsuffix. unfold is_name. apply andb_true_iff. split.
  - reflexivity.
  - unfold binaryName. rewrite !contains_sep_app, Hos, Harch, Htag, Hsuffix.
    reflexivity.
Qed.

Lemma getOutputName_path (tag : string) (a : Architecture) :
  contains_sep (OS a) = false -> contains_sep (Arch a) = false ->
  contains_sep tag = false -> contains_sep (BinarySuffix a) = false ->
  getOutputName tag a = "dist/binaries/" +:+ binaryName tag a +:+ BinarySuffix a.
Proof.
  intros Hos Harch Htag Hsuffix.
  pose proof (binary_file_is_name tag a Hos Harch Htag Hsuffix) as Hname.
  unfold getOutputName. rewrite Join_cons_nonempty by reflexivity.
  rewrite !join_sep_cons. simpl join_sep.
  change (DistFolder +:+ "/" +:+ "binaries" +:+ "/" +:+
            binaryName tag a +:+ BinarySuffix a)
    with ("dist/binaries" +:+ "/" +:+ binaryName tag a +:+ BinarySuffix a).
  by rewrite Clean_snoc_name.
Qed.

(** X13. When system, architecture, build tag and suffix contain no path
    separator, the binary of an architecture is built directly in
    dist/binaries, under its name and suffix. *)
Theorem getOutputName_in_binaries (tag : string) (a : Architecture) :
  contains_sep (OS a) = false -> contains_sep (Arch a) = false ->
  contains_sep tag = false -> contains_sep (BinarySuffix a) = false ->
  getOutputName tag a = "dist/binaries/" +:+ binaryName tag a +:+ BinarySuffix a /\
  binaryName tag a = "wiki_" +:+ OS a +:+ "_" +:+ Arch a +:+ "_" +:+ tag.
Proof.
  intros Hos Harch Htag Hsuffix. split; [by apply getOutputName_path | reflexivity].
Qed.

(** X14. The binary that [Release.Archive] puts into the archive of an
    architecture is looked for in dist, which is not where the build of
    that architecture writes it (dist/binaries). *)
Theorem archive_source_is_not_build_output (tag : string) (a : Architecture) :
  contains_sep (OS a) = false -> contains_sep (Arch a) = false ->
  contains_sep tag = false -> contains_sep (BinarySuffix a) = false ->
  archiveSource tag a = "dist/" +:+ binaryName tag a +:+ BinarySuffix a /\
  archiveSource tag a <> getOutputName tag a.
Proof.
  intros Hos Harch Htag Hsuffix. split; [reflexivity |].
  rewrite getOutputName_path by done. unfold archiveSource. intros Heq.
  apply (f_equal String.length) in Heq. rewrite !length_append in Heq.
  simpl in Heq. lia.
Qed.

End BinaryNameProperties.

(** X13 (witness). The Windows binary of the tag 1.2.3. *)
Lemma getOutputName_in_binaries_witness :
  Mage.getOutputName "1.2.3" (Mage.mkArchitecture "windows" "amd64" ".exe" ".zip") =
    "dist/binaries/" +:+
      Mage.binaryName "1.2.3" (Mage.mkArchitecture "windows" "amd64" ".exe" ".zip")
      +:+ ".exe" /\
  Mage.binaryName "1.2.3" (Mage.mkArchitecture "windows" "amd64" ".exe" ".zip") =
    "wiki_" +:+ "windows" +:+ "_" +:+ "amd64" +:+ "_" +:+ "1.2.3".
Proof.
  apply (getOutputName_in_binaries "1.2.3"
           (Mage.mkArchitecture "windows" "amd64" ".exe" ".zip")); reflexivity.
Defined.

(** X14 (witness). The Linux binary of the tag 1.2.3. *)
Lemma archive_source_is_not_build_output_witness :
  Mage.archiveSource "1.2.3" linuxAmd64 =
    "dist/" +:+ Mage.binaryName "1.2.3" linuxAmd64 +:+ "" /\
  Mage.archiveSource "1.2.3" linuxAmd64 <> Mage.getOutputName "1.2.3" linuxAmd64.
Proof.
  apply (archive_source_is_not_build_output "1.2.3" linuxAmd64); reflexivity.
Defined.

Section VersionProperties.

Import Mage.

Variable Ext : Type.
Variable sh_Output : list string -> Ext -> (string * option error) * Ext.
Variable sh_Exec : list string -> Ext -> (string * bool * option error) * Ext.
Variable NewVersion : string -> (Z * Z * Z) + error.
Variable itoa : Z -> string.
Variable parseTime : string -> Z + error.

(** The two guards of [getExactTag] together ask whether there is an
    error. *)
Lemma getExactTag_run
    (exec : list string -> Ext -> (string * bool * option error) * Ext) (x : Ext) :
  getExactTag Ext sh_Output exec x =
    let '((_, err), x1) := sh_Output [GitExe; "fetch"; "--tags"] x in
    match err with
    | Some e => (("", false, Some e), x1)
    | None =>
        let '((buf, _, err), x2) :=
          exec [GitExe; "describe"; "--exact-match"; "--tags"] x1 in
        match err with
        | Some e => (("", false, Some e), x2)
        | None => ((buf, true, None), x2)
        end
    end.
Proof.
  unfold getExactTag.
  destruct (sh_Output [GitExe; "fetch"; "--tags"] x) as [[out [e|]] x1]; [done |].
  by destruct (exec _ x1) as [[[buf [|]] [e|]] x2].
Qed.

(** X15. [getExactTag] runs the fetch of the tags and, when that
    succeeds, the exact-match describe in the state the fetch left. It
    reports a tag exactly when it returns no error, and then the tag is
    the text that describe printed; when describe fails the tag is empty
    and its error is returned, whether the command is reported as having
    run or not; when the fetch fails its error is returned, the tag is
    empty and describe is not run. *)
Theorem getExactTag_tagged_iff_no_error (x : Ext) (f : bool -> bool) :
  let res := fst (getExactTag Ext sh_Output sh_Exec x) in
  (snd (fst res) = true <-> snd res = None) /\
  (snd (fst res) = false -> fst (fst res) = "") /\
  getExactTag Ext sh_Output
    (fun cmd y => let '((buf, ran, err), y') := sh_Exec cmd y in ((buf, f ran, err), y'))
    x = getExactTag Ext sh_Output sh_Exec x /\
  (forall out x1 buf ran x2,
     sh_Output [GitExe; "fetch"; "--tags"] x = ((out, None), x1) ->
     sh_Exec [GitExe; "describe"; "--exact-match"; "--tags"] x1 = ((buf, ran, None), x2) ->
     getExactTag Ext sh_Output sh_Exec x = ((buf, true, None), x2)) /\
  (forall out x1 buf ran e x2,
     sh_Output [GitExe; "fetch"; "--tags"] x = ((out, None), x1) ->
     sh_Exec [GitExe; "describe"; "--exact-match"; "--tags"] x1 = ((buf, ran, Some e), x2) ->
     getExactTag Ext sh_Output sh_Exec x = (("", false, Some e), x2)) /\
  (forall out e x1,
     sh_Output [GitExe; "fetch"; "--tags"] x = ((out, Some e), x1) ->
     getExactTag Ext sh_Output sh_Exec x = (("", false, Some e), x1)).
Proof.
  simpl. rewrite !getExactTag_run.
  split; [| split; [| split; [| split; [| split]]]].
  - destruct (sh_Output [GitExe; "fetch"; "--tags"] x) as [[out [e|]] x1]; simpl;
      [done |].
    by destruct (sh_Exec _ x1) as [[[buf ran] [e|]] x2].
  - destruct (sh_Output [GitExe; "fetch"; "--tags"] x) as [[out [e|]] x1]; simpl;
      [done |].
    by destruct (sh_Exec _ x1) as [[[buf ran] [e|]] x2].
  - destruct (sh_Output [GitExe; "fetch"; "--tags"] x) as [[out [e|]] x1]; simpl;
      [done |].
    by destruct (sh_Exec _ x1) as [[[buf ran] [e|]] x2].
  - intros out x1 buf ran x2 Hfetch Hdescribe. by rewrite Hfetch, Hdescribe.
  - intros out x1 buf ran e x2 Hfetch Hdescribe. by rewrite Hfetch, Hdescribe.
  - intros out e x1 Hfetch. by rewrite Hfetch.
Qed.

Lemma getTag_error (x : Ext) (tag : string) (e : error) (x1 : Ext) :
  getTag Ext sh_Output x = ((tag, Some e), x1) -> tag = "".
Proof.
  unfold getTag.
  destruct (sh_Output [GitExe; "fetch"; "--tags"] x) as [[out [e1|]] y1].
  - by intros [= <- _ _].
  - destruct (sh_Output _ y1) as [[out2 [e2|]] y2]; [by intros [= <- _ _] | done].
Qed.

(** X16. [setBuildVersion] fails exactly when [getTag] does, and then the
    build tag is left empty; when [getTag] succeeds it returns nil
    whatever [getExactTag] reports, the build is a tagged one exactly when
    [getExactTag] returned no error, and one line is printed. The tags
    collected so far are never touched. *)
Theorem setBuildVersion_outcome (st : BuildState Ext) :
  (forall tag e x1, getTag Ext sh_Output (outside st) = ((tag, Some e), x1) ->
     fst (setBuildVersion Ext sh_Output sh_Exec st) = Some e /\
     buildTag (globals (snd (setBuildVersion Ext sh_Output sh_Exec st))) = "" /\
     isTag (globals (snd (setBuildVersion Ext sh_Output sh_Exec st))) = isTag (globals st) /\
     semverTags (globals (snd (setBuildVersion Ext sh_Output sh_Exec st))) =
       semverTags (globals st) /\
     printed (snd (setBuildVersion Ext sh_Output sh_Exec st)) = printed st) /\
  (forall tag x1, getTag Ext sh_Output (outside st) = ((tag, None), x1) ->
     fst (setBuildVersion Ext sh_Output sh_Exec st) = None /\
     buildTag (globals (snd (setBuildVersion Ext sh_Output sh_Exec st))) = tag /\
     (isTag (globals (snd (setBuildVersion Ext sh_Output sh_Exec st))) = true <->
        snd (fst (getExactTag Ext sh_Output sh_Exec x1)) = None) /\
     semverTags (globals (snd (setBuildVersion Ext sh_Output sh_Exec st))) =
       semverTags (globals st) /\
     length (printed (snd (setBuildVersion Ext sh_Output sh_Exec st))) =
       S (length (printed st))).
Proof.
  split.
  - intros tag e x1 Hget. pose proof (getTag_error _ _ _ _ Hget) as ->.
    unfold setBuildVersion. by rewrite Hget.
  - intros tag x1 Hget. unfold setBuildVersion. rewrite Hget.
    rewrite !getExactTag_run.
    destruct (sh_Output [GitExe; "fetch"; "--tags"] x1) as [[out [e|]] x2]; simpl.
    + repeat split; try done. rewrite length_app. simpl. lia.
    + destruct (sh_Exec _ x2) as [[[buf ran] [e|]] x3]; simpl;
        repeat split; try done; rewrite length_app; simpl; lia.
Qed.

Lemma substring_all (t : string) : String.substring 0 (String.length t) t = t.
Proof. induction t as [|c t IH]; [reflexivity |]. simpl. by rewrite IH. Qed.

Lemma TrimPrefix_v (t : string) : TrimPrefix ("v" +:+ t) "v" = t.
Proof.
  unfold TrimPrefix. change ("v" +:+ t) with (String "v" t). simpl.
  rewrite Nat.sub_0_r. destruct t as [|c t]; [reflexivity |].
  apply substring_all.
Qed.

Lemma prefix_append (a b : string) : String.prefix a (a +:+ b) = true.
Proof.
  induction a as [|c a IH]; [by destruct b |].
  rewrite append_cons. simpl. by destruct (ascii_dec c c).
Qed.

(** X17. [setSemVerTags]: a build that is no tagged one gets the one tag
    "latest"; a tagged build whose tag, a leading v dropped, is a version
    gets the three tags major.minor.patch, major.minor and major, each a
    prefix of the one before; a tagged build whose tag is no version
    fails, with the tags as they were but the build tag already
    stripped of its v. *)
Theorem setSemVerTags_outcome (st : BuildState Ext) :
  (isTag (globals st) = false ->
     setSemVerTags Ext NewVersion itoa st =
       (None,
        mkBuildState
          (mkGlobals false (semverTags (globals st) ++ ["latest"])
             (buildTag (globals st)) (buildTime (globals st)))
          (outside st) (printed st))) /\
  (forall major minor patch, isTag (globals st) = true ->
     NewVersion (TrimPrefix (buildTag (globals st)) "v") = inl (major, minor, patch) ->
     let st' := snd (setSemVerTags Ext NewVersion itoa st) in
     fst (setSemVerTags Ext NewVersion itoa st) = None /\
     semverTags (globals st') =
       semverTags (globals st) ++
         [itoa major +:+ "." +:+ itoa minor +:+ "." +:+ itoa patch;
          itoa major +:+ "." +:+ itoa minor;
          itoa major] /\
     String.prefix (itoa major) (itoa major +:+ "." +:+ itoa minor) = true /\
     String.prefix (itoa major +:+ "." +:+ itoa minor)
       (itoa major +:+ "." +:+ itoa minor +:+ "." +:+ itoa patch) = true /\
     buildTag (globals st') = TrimPrefix (buildTag (globals st)) "v") /\
  (forall e, isTag (globals st) = true ->
     NewVersion (TrimPrefix (buildTag (globals st)) "v") = inr e ->
     let st' := snd (setSemVerTags Ext NewVersion itoa st) in
     fst (setSemVerTags Ext NewVersion itoa st) = Some e /\
     semverTags (globals st') = semverTags (globals st) /\
     buildTag (globals st') = TrimPrefix (buildTag (globals st)) "v") /\
  (forall t, TrimPrefix ("v" +:+ t) "v" = t).
Proof.
  split; [| split; [| split]].
  - intros Htag. unfold setSemVerTags. by rewrite Htag.
  - intros major minor patch Htag Hver. unfold setSemVerTags. rewrite Htag. simpl.
    rewrite Hver. simpl. repeat split.
    + by rewrite <- !app_assoc.
    + apply prefix_append.
    + replace (itoa major +:+ "." +:+ itoa minor +:+ "." +:+ itoa patch)
        with ((itoa major +:+ "." +:+ itoa minor) +:+ "." +:+ itoa patch)
        by (by rewrite !append_assoc).
      apply prefix_append.
  - intros e Htag Hver. unfold setSemVerTags. rewrite Htag. simpl.
    by rewrite Hver.
  - apply TrimPrefix_v.
Qed.

(** X18. [init]: when the three git commands answer and the commit is no
    tag, it returns with the tag "latest" added and the build tag that
    [describe] printed; when the commit is a tag that is no version, or
    when [describe] fails, the process ends with status 1. *)
Theorem init_outcome (st st1 : BuildState Ext) :
  setBuildTime Ext sh_Output parseTime st = (None, st1) ->
  (forall tag x1 e buf x2,
     getTag Ext sh_Output (outside st1) = ((tag, None), x1) ->
     getExactTag Ext sh_Output sh_Exec x1 = ((buf, false, Some e), x2) ->
     exists st',
       init Ext sh_Output sh_Exec NewVersion itoa parseTime st = Returned tt st' /\
       semverTags (globals st') = semverTags (globals st1) ++ ["latest"] /\
       isTag (globals st') = false /\ buildTag (globals st') = tag) /\
  (forall tag x1 buf x2 e,
     getTag Ext sh_Output (outside st1) = ((tag, None), x1) ->
     getExactTag Ext sh_Output sh_Exec x1 = ((buf, true, None), x2) ->
     NewVersion (TrimPrefix tag "v") = inr e ->
     exists st', init Ext sh_Output sh_Exec NewVersion itoa parseTime st = Exited 1 st') /\
  (forall tag e x1,
     getTag Ext sh_Output (outside st1) = ((tag, Some e), x1) ->
     exists st', init Ext sh_Output sh_Exec NewVersion itoa parseTime st = Exited 1 st').
Proof.
  intros Htime. unfold init. rewrite Htime. split; [| split].
  - intros tag x1 e buf x2 Hget Hexact.
    unfold setBuildVersion. rewrite Hget, Hexact. cbn iota beta.
    unfold setSemVerTags. simpl. eexists. split; [reflexivity |]. by simpl.
  - intros tag x1 buf x2 e Hget Hexact Hver.
    unfold setBuildVersion. rewrite Hget, Hexact. cbn iota beta.
    unfold setSemVerTags. simpl. rewrite Hver. by eexists.
  - intros tag e x1 Hget. unfold setBuildVersion. rewrite Hget. by eexists.
Qed.

End VersionProperties.

Section ReleaseProperties.

Import Mage.

Variable Ext : Type.
Variable sh_Run : list string -> Ext -> option error * Ext.
Variable write_fails : string -> option error.
Variable archive : list string -> string -> gmap string bytes ->
                   gmap string bytes * option error.
Variable Sum256 : bytes -> bytes.
Variable hex : bytes -> bytes.
Variable Deps : list string -> ReleaseState Ext -> Outcome unit (ReleaseState Ext).

Lemma dockerfile_path : Filepath.Join [DistFolder; "Dockerfile"] = "dist/Dockerfile".
Proof. reflexivity. Qed.

(** What [Release.Docker] does once the Dockerfile is copied. *)
Lemma Docker_run (tags : list string) (st st0 : ReleaseState Ext) (content : bytes) :
  Deps ["Release.Notices"; "Build.LinuxAmd64"] st = Returned tt st0 ->
  rfiles st0 !! "gorelease.Dockerfile" = Some content ->
  write_fails "dist/Dockerfile" = None ->
  Docker Ext sh_Run write_fails Deps tags st =
    let out := rprinted st0 ++ ["Building docker container" +:+ nl] in
    let '(err, x1) :=
      sh_Run [DockerEXE; "build"; "-t"; ProjectName; DistFolder] (routside st0) in
    match err with
    | Some e =>
        Returned (Some e)
          (mkReleaseState (<["dist/Dockerfile" := content]> (rfiles st0)) x1 out
             (rlogged st0))
    | None =>
        Returned (fst (tagAll Ext sh_Run tags x1))
          (mkReleaseState (delete "dist/Dockerfile" (rfiles st0))
             (snd (tagAll Ext sh_Run tags x1)) out (rlogged st0))
    end.
Proof.
  intros Hdeps Hfile Hwrite. unfold Docker, readFile, writeFile, remove.
  rewrite Hdeps, Hfile, dockerfile_path, Hwrite. simpl.
  destruct (sh_Run _ (routside st0)) as [[e|] x1]; [reflexivity |].
  rewrite lookup_insert_eq, delete_insert_eq.
  by destruct (tagAll Ext sh_Run tags x1).
Qed.

(** X19. When the docker build fails, [Release.Docker] returns its error
    and leaves the copied Dockerfile in dist; no tag is set. *)
Theorem Docker_failed_build (tags : list string) (st st0 : ReleaseState Ext)
    (content : bytes) (e : error) (x1 : Ext) :
  Deps ["Release.Notices"; "Build.LinuxAmd64"] st = Returned tt st0 ->
  rfiles st0 !! "gorelease.Dockerfile" = Some content ->
  write_fails "dist/Dockerfile" = None ->
  sh_Run [DockerEXE; "build"; "-t"; ProjectName; DistFolder] (routside st0) = (Some e, x1) ->
  exists st',
    Docker Ext sh_Run write_fails Deps tags st = Returned (Some e) st' /\
    rfiles st' !! "dist/Dockerfile" = Some content /\
    routside st' = x1.
Proof.
  intros Hdeps Hfile Hwrite Hbuild.
  rewrite (Docker_run tags st st0 content Hdeps Hfile Hwrite). simpl. rewrite Hbuild.
  eexists. split; [reflexivity |]. simpl. by rewrite lookup_insert_eq.
Qed.



(** X21. Without gorelease.Dockerfile, [Release.Docker] ends the process
    with status 1 before any docker command is run and without
    touching the files. *)
Theorem Docker_without_Dockerfile (tags : list string) (st st0 : ReleaseState Ext) :
  Deps ["Release.Notices"; "Build.LinuxAmd64"] st = Returned tt st0 ->
  rfiles st0 !! "gorelease.Dockerfile" = None ->
  exists st',
    Docker Ext sh_Run write_fails Deps tags st = Exited 1 st' /\
    rfiles st' = rfiles st0 /\ routside st' = routside st0.
Proof.
  intros Hdeps Hfile. unfold Docker, readFile. rewrite Hdeps, Hfile.
  by eexists.
Qed.

(** X22. One turn of [Release.Archive], whatever the archiver returns:
    the checksum file is written all the same and holds the checksum of
    what is at the path of the archive afterwards, of the empty input when
    nothing is there; every other file is as the archiver left it; the
    error of the archiver and the missing archive are logged, one line
    each. So a failed archive that left no file gets the checksum of the
    empty input and two lines in the log, and an archive that is there
    gets the checksum of its bytes, with one line in the log when the
    archiver reported an error and none when it did not. When the
    checksum cannot be written that is logged too and the files are as
    the archiver left them. [Release.Archive] itself returns nil whenever
    its dependencies return. *)
Theorem Archive_checksums (tag : string) (a : Architecture) (st : ReleaseState Ext) :
  let dest := archiveOutputName tag a +:+ ArchiveType a in
  let sums := archiveOutputName tag a +:+ "_checksum.sha256" in
  let st' := archiveOne Ext write_fails archive Sum256 hex tag a st in
  (forall files1 err,
     archive [archiveSource tag a; "dist/notices"] dest (rfiles st) = (files1, err) ->
     write_fails sums = None ->
     rfiles st' !! sums = Some (hex (Sum256 (default [] (files1 !! dest)))) /\
     (forall path, path <> sums -> rfiles st' !! path = files1 !! path) /\
     length (rlogged st') =
       length (rlogged st) + match err with Some _ => 1 | None => 0 end +
         match files1 !! dest with Some _ => 0 | None => 1 end) /\
  (forall files1 e,
     archive [archiveSource tag a; "dist/notices"] dest (rfiles st) = (files1, Some e) ->
     files1 !! dest = None -> write_fails sums = None ->
     rfiles st' !! sums = Some (hex (Sum256 [])) /\
     length (rlogged st') = S (S (length (rlogged st)))) /\
  (forall files1 err data,
     archive [archiveSource tag a; "dist/notices"] dest (rfiles st) = (files1, err) ->
     files1 !! dest = Some data -> write_fails sums = None ->
     rfiles st' !! sums = Some (hex (Sum256 data)) /\
     (err = None -> rlogged st' = rlogged st) /\
     (is_Some err -> length (rlogged st') = S (length (rlogged st)))) /\
  (forall files1 err e,
     archive [archiveSource tag a; "dist/notices"] dest (rfiles st) = (files1, err) ->
     write_fails sums = Some e ->
     rfiles st' = files1 /\
     length (rlogged st') =
       S (length (rlogged st) + match err with Some _ => 1 | None => 0 end +
         match files1 !! dest with Some _ => 0 | None => 1 end)) /\
  (forall st0, Deps ["Release.Notices"; "Build.All"] st = Returned tt st0 ->
     exists st2,
       Archive Ext write_fails archive Sum256 hex Deps tag st = Returned None st2).
Proof.
  simpl. split; [| split; [| split; [| split]]].
  - intros files1 err Harch Hwrite.
    unfold archiveOne, readFile, writeFile. rewrite Harch, Hwrite.
    destruct err as [e|], (files1 !! _) as [data|] eqn:Hdest; simpl;
      (split; [by rewrite lookup_insert_eq |]);
      (split; [by intros path Hpath; rewrite lookup_insert_ne |]);
      rewrite ?length_app; simpl; lia.
  - intros files1 e Harch Hnone Hwrite.
    unfold archiveOne, readFile, writeFile. rewrite Harch, Hnone, Hwrite. simpl.
    split; [by rewrite lookup_insert_eq |].
    rewrite !length_app. simpl. lia.
  - intros files1 err data Harch Hsome Hwrite.
    unfold archiveOne, readFile, writeFile. rewrite Harch, Hsome, Hwrite.
    destruct err as [e|]; simpl.
    + split; [by rewrite lookup_insert_eq |]. split; [discriminate |].
      intros _. rewrite length_app. simpl. lia.
    + split; [by rewrite lookup_insert_eq |]. split; [done |].
      by intros [e He].
  - intros files1 err e Harch Hwrite.
    unfold archiveOne, readFile, writeFile. rewrite Harch, Hwrite.
    destruct err as [e'|], (files1 !! _) as [data|] eqn:Hdest; simpl;
      (split; [done |]); rewrite ?length_app; simpl; lia.
  - intros st0 Hdeps. unfold Archive. rewrite Hdeps. by eexists.
Qed.

End ReleaseProperties.

(** ** The theorems above at concrete inputs *)

Lemma aliceSession_user_is_string (v : Middleware.any) :
  Middleware.Values aliceSession !! Middleware.sessionUserKey = Some v ->
  exists name, v = Middleware.AString name.
Proof.
  intros Hv. vm_compute in Hv. injection Hv as <-. by eexists.
Defined.

Lemma emptySession_user_is_string (v : Middleware.any) :
  Middleware.Values emptySession !! Middleware.sessionUserKey = Some v ->
  exists name, v = Middleware.AString name.
Proof.
  intros Hv. vm_compute in Hv. discriminate.
Defined.

(** X1 (witness). The session of alice on an edit request. *)
Lemma SessionHandler_context_witness :
  exists request',
    Http.SessionHandler aliceTable oneSession {[ 1 := aliceSession ]}
      (anonymousRequest "/edit/home") = Ok [Middleware.ServeNext request'] /\
    Middleware.getUserForRequest request' = Some (Middleware.mkUser "alice") /\
    Middleware.getSessionForRequest request' = Some 1.
Proof.
  destruct (SessionHandler_context aliceTable oneSession {[ 1 := aliceSession ]}
              (anonymousRequest "/edit/home") 1 None aliceSession)
    as (request' & Hrun & _ & _ & Hsession & Huser & _).
  - reflexivity.
  - vm_compute. reflexivity.
  - exact aliceSession_user_is_string.
  - exists request'. repeat split; assumption.
Defined.

(** X2 (witness). A session whose user entry is a boolean. *)
Lemma SessionHandler_panics_witness :
  exists msg,
    Http.SessionHandler aliceTable oneSession {[ 1 := brokenSession ]}
      (anonymousRequest "/edit/home") = Panic msg.
Proof.
  apply (SessionHandler_panics aliceTable oneSession {[ 1 := brokenSession ]}
           (anonymousRequest "/edit/home") 1 None brokenSession (Middleware.ABool true)).
  - reflexivity.
  - vm_compute. reflexivity.
  - vm_compute. reflexivity.
  - intros name. discriminate.
Defined.

(** X3 (witness). alice may edit; a session without user may not. *)
Lemma SessionHandler_then_CheckAuthentication_witness :
  (exists request',
     Http.wrap
       (Http.SessionHandler aliceTable oneSession {[ 1 := aliceSession ]}
          (anonymousRequest "/edit/home"))
       (Middleware.CheckAuthentication true true (rev Middleware.routePrefixes))
     = Ok [Middleware.ServeNext request'] /\
     Middleware.getUserForRequest request' = Some (Middleware.mkUser "alice")) /\
  Http.wrap
    (Http.SessionHandler aliceTable oneSession {[ 1 := emptySession ]}
       (anonymousRequest "/edit/home"))
    (Middleware.CheckAuthentication true true (rev Middleware.routePrefixes))
  = Ok [Middleware.WriteHeader 401].
Proof.
  assert (Hperm : Permutation (rev Middleware.routePrefixes) Middleware.routePrefixes)
    by (symmetry; apply Permutation_rev).
  split.
  - destruct (SessionHandler_then_CheckAuthentication aliceTable oneSession
                true true (rev Middleware.routePrefixes) {[ 1 := aliceSession ]}
                (anonymousRequest "/edit/home") 1 None aliceSession "/edit/")
      as [Hknown _].
    + reflexivity.
    + vm_compute. reflexivity.
    + exact aliceSession_user_is_string.
    + exact Hperm.
    + simpl. tauto.
    + reflexivity.
    + vm_compute. reflexivity.
    + apply Hknown. vm_compute. reflexivity.
  - destruct (SessionHandler_then_CheckAuthentication aliceTable oneSession
                true true (rev Middleware.routePrefixes) {[ 1 := emptySession ]}
                (anonymousRequest "/edit/home") 1 None emptySession "/edit/")
      as [_ Hnone].
    + reflexivity.
    + vm_compute. reflexivity.
    + exact emptySession_user_is_string.
    + exact Hperm.
    + simpl. tauto.
    + reflexivity.
    + vm_compute. reflexivity.
    + apply Hnone; vm_compute; reflexivity.
Defined.

(** X4 (witness). A key put into a new session. *)
Lemma putSessionKey_stores_witness :
  exists s',
    Middleware.heap
      (snd (Middleware.putSessionKey cookieSave [] (sessionRequest "/view/home")
              "error" (Middleware.AString "no such page")
              (Middleware.mkState {[ 1 := emptySession ]} []))) !! 1 = Some s' /\
    Middleware.Values s' !! "error" = Some (Middleware.AString "no such page") /\
    Middleware.SOptions s' = Middleware.mkOptions true Middleware.SameSiteStrictMode 2678400.
Proof.
  destruct (proj1 (putSessionKey_stores (list Writer.WriterCall) cookieSave []
                     (sessionRequest "/view/home") "error"
                     (Middleware.AString "no such page")
                     (Middleware.mkState {[ 1 := emptySession ]} []))
              1 emptySession)
    as (s' & Hheap & Hvalue & _ & _ & Hnew & _).
  - vm_compute. reflexivity.
  - vm_compute. reflexivity.
  - exists s'. repeat split; try assumption. apply Hnew. reflexivity.
Defined.

(** X5 (witness). The user taken out of the session of alice. *)
Lemma clearSessionKey_removes_witness :
  exists s',
    Middleware.heap
      (snd (Middleware.clearSessionKey cookieSave [] (sessionRequest "/wiki/logout")
              "user" (Middleware.mkState {[ 1 := aliceSession ]} []))) !! 1 = Some s' /\
    Middleware.Values s' !! "user" = None.
Proof.
  destruct (proj1 (clearSessionKey_removes (list Writer.WriterCall) cookieSave []
                     (sessionRequest "/wiki/logout") "user"
                     (Middleware.mkState {[ 1 := aliceSession ]} []))
              1 aliceSession)
    as (s' & Hheap & Hgone & _).
  - vm_compute. reflexivity.
  - vm_compute. reflexivity.
  - exists s'. by split.
Defined.

(** X6 (witness). A request with a pending error. *)
Lemma getSessionArgs_error_witness :
  exists s',
    Middleware.heap
      (snd (snd (Http.getSessionArgs cookieSave noField noField []
                   flashRequest (Middleware.mkState {[ 1 := flashSession ]} []))))
      !! 1 = Some s' /\
    Middleware.Values s' !! Middleware.sessionErrorKey = None.
Proof.
  destruct (proj2 (proj2 (proj2 (proj2
              (getSessionArgs_error (list Writer.WriterCall) cookieSave noField noField []
                 flashRequest (Middleware.mkState {[ 1 := flashSession ]} [])))))
              1 flashSession)
    as (s' & Hheap & Hgone & _).
  - vm_compute. discriminate.
  - vm_compute. reflexivity.
  - vm_compute. reflexivity.
  - exists s'. by split.
Defined.

(** X7 (witness). An error put into a fresh session and read twice. *)
Lemma flash_error_shown_once_witness :
  let st1 :=
    snd (Middleware.putSessionKey cookieSave [] (sessionRequest "/edit/home")
           Middleware.sessionErrorKey (Middleware.AString "no such page")
           (Middleware.mkState {[ 1 := emptySession ]} [])) in
  exists r1' r2',
    Http.SessionHandler aliceTable oneSession (Middleware.heap st1)
      (anonymousRequest "/view/home") = Ok [Middleware.ServeNext r1'] /\
    Http.Error (fst (Http.getSessionArgs cookieSave noField noField [] r1' st1))
      = "no such page" /\
    let st2 := snd (snd (Http.getSessionArgs cookieSave noField noField [] r1' st1)) in
    Http.SessionHandler aliceTable oneSession (Middleware.heap st2)
      (anonymousRequest "/view/other") = Ok [Middleware.ServeNext r2'] /\
    Http.Error (fst (Http.getSessionArgs cookieSave noField noField [] r2' st2)) = "" /\
    snd (Http.getSessionArgs cookieSave noField noField [] r2' st2) = ([], st2).
Proof.
  apply (flash_error_shown_once aliceTable oneSession (list Writer.WriterCall)
           cookieSave noField noField
           (Middleware.mkState {[ 1 := emptySession ]} []) [] [] []
           (sessionRequest "/edit/home") (anonymousRequest "/view/home")
           (anonymousRequest "/view/other") 1 emptySession "no such page" None None).
  - vm_compute. reflexivity.
  - vm_compute. reflexivity.
  - exact emptySession_user_is_string.
  - discriminate.
  - reflexivity.
  - reflexivity.
  - vm_compute. reflexivity.
Defined.

(** X8 (witness). A handler that answers 200. *)
Lemma interceptor_transparent_witness :
  Http.realWriter (Http.runProg helloProg (Http.mkIntercept [] 0)) =
    [Writer.CallWriteHeader 200; Writer.CallWrite helloBody] /\
  Http.status (Http.runProg helloProg (Http.mkIntercept ([] : list Writer.WriterCall) 0))
    <> Middleware.StatusNotFound.
Proof.
  assert (Hnever : Http.never404 helloProg)
    by (simpl; split; [discriminate | done]).
  exact (interceptor_transparent helloProg ([] : list Writer.WriterCall) Hnever).
Defined.

(** X9 (witness). A handler that answers 404 with a body. *)
Lemma interceptor_hides_404_witness :
  Http.runProg missingProg (Http.mkIntercept ([] : list Writer.WriterCall) 0) =
    Http.mkIntercept [] 404.
Proof.
  assert (Hno : Http.no_status (Http.DoWrite helloBody (fun _ => Http.Done)))
    by (simpl; done).
  exact (proj1 (interceptor_hides_404
                  (Http.DoWrite helloBody (fun _ => Http.Done))
                  ([] : list Writer.WriterCall) Hno)).
Defined.

(** X10 (witness). Four handlers behind [NotFoundHandler]: 200 with a
    body; 404 with a body; header fields, 404 and a body, as
    [http.NotFound] answers; 404 and then 200 with a body. *)
Lemma NotFoundHandler_outcome_witness :
  Http.NotFoundHandler cookieSave noField noField "404.gohtml" demoRender
    (fun _ => helloProg) [] (anonymousRequest "/view/home") (Middleware.mkState ∅ [])
  = ([Writer.CallWriteHeader 200; Writer.CallWrite helloBody], Middleware.mkState ∅ []) /\
  fst (Http.NotFoundHandler cookieSave noField noField "404.gohtml" demoRender
         (fun _ => missingProg) [] (anonymousRequest "/view/gone")
         (Middleware.mkState ∅ []))
  = [Writer.CallWriteHeader 404; Writer.CallWrite []] /\
  fst (Http.NotFoundHandler cookieSave noField noField "404.gohtml" demoRender
         (fun _ => plainNotFoundProg) [] (anonymousRequest "/view/gone")
         (Middleware.mkState ∅ []))
  = [Writer.CallHeaderSet "Content-Type" "text/plain; charset=utf-8";
     Writer.CallHeaderSet "X-Content-Type-Options" "nosniff";
     Writer.CallWriteHeader 404; Writer.CallWrite []] /\
  Http.NotFoundHandler cookieSave noField noField "404.gohtml" demoRender
    (fun _ => retractedProg) [] (anonymousRequest "/view/gone") (Middleware.mkState ∅ [])
  = ([Writer.CallWriteHeader 200; Writer.CallWrite helloBody], Middleware.mkState ∅ []).
Proof.
  assert (Hnever : Http.never404 helloProg)
    by (simpl; split; [discriminate | done]).
  assert (Hno : Http.no_status (Http.DoWrite helloBody (fun _ => Http.Done)))
    by (simpl; done).
  assert (Hplain : Http.ends_with true plainNotFoundProg false)
    by (simpl; done).
  assert (Hretracted : Http.ends_with false retractedProg false)
    by (simpl; done).
  split; [| split; [| split]].
  - destruct (NotFoundHandler_outcome cookieSave noField noField "404.gohtml"
                demoRender (fun _ => helloProg) [] (anonymousRequest "/view/home")
                (Middleware.mkState ∅ [])) as (_ & _ & _ & _ & _ & Hpass & _).
    exact (Hpass Hnever).
  - destruct (NotFoundHandler_outcome cookieSave noField noField "404.gohtml"
                demoRender (fun _ => missingProg) [] (anonymousRequest "/view/gone")
                (Middleware.mkState ∅ [])) as (_ & _ & _ & _ & _ & _ & Hreplace).
    rewrite (Hreplace (Http.DoWrite helloBody (fun _ => Http.Done)) eq_refl Hno).
    reflexivity.
  - destruct (NotFoundHandler_outcome cookieSave noField noField "404.gohtml"
                demoRender (fun _ => plainNotFoundProg) [] (anonymousRequest "/view/gone")
                (Middleware.mkState ∅ [])) as (_ & Hreplace & _ & Hends & _).
    rewrite (Hreplace (Hends Hplain)). reflexivity.
  - destruct (NotFoundHandler_outcome cookieSave noField noField "404.gohtml"
                demoRender (fun _ => retractedProg) [] (anonymousRequest "/view/gone")
                (Middleware.mkState ∅ [])) as (_ & _ & Hpass & _ & Hends & _).
    rewrite (Hpass (Hends Hretracted)). reflexivity.
Defined.

(** X11 (witness). The unknown route "/nope". *)
Lemma unknown_route_renders_NotFound_witness :
  fst (Http.NotFoundHandler cookieSave noField noField "404.gohtml" demoRender
         (fun request =>
            Http.prog_of_actions noRedirect (fun _ => helloProg)
              (Middleware.CheckAuthentication true true (rev Middleware.routePrefixes)
                 request))
         [] (anonymousRequest "/nope") (Middleware.mkState ∅ []))
  = [Writer.CallWriteHeader 404; Writer.CallWrite []].
Proof.
  rewrite (unknown_route_renders_NotFound cookieSave noField noField "404.gohtml"
             demoRender true true (rev Middleware.routePrefixes) noRedirect
             (fun _ => helloProg) [] (anonymousRequest "/nope") (Middleware.mkState ∅ [])).
  - reflexivity.
  - symmetry. apply Permutation_rev.
  - exact unknown_route_has_no_prefix.
Defined.

(** X15 (witness). On a checkout of the tag v1.2.3 the two git commands
    are run and the tag is what describe printed. *)
Lemma getExactTag_tagged_iff_no_error_witness :
  Mage.getExactTag (list (list string)) recordingOutput recordingExec []
  = (("v1.2.3", true, None),
     [[Mage.GitExe; "fetch"; "--tags"];
      [Mage.GitExe; "describe"; "--exact-match"; "--tags"]]).
Proof.
  destruct (getExactTag_tagged_iff_no_error (list (list string)) recordingOutput
              recordingExec [] (fun ran => ran))
    as (_ & _ & _ & Htagged & _).
  exact (Htagged "" [[Mage.GitExe; "fetch"; "--tags"]] "v1.2.3" true
           [[Mage.GitExe; "fetch"; "--tags"];
            [Mage.GitExe; "describe"; "--exact-match"; "--tags"]]
           eq_refl eq_refl).
Defined.

(** X16 (witness). A checkout three commits after a tag. *)
Lemma setBuildVersion_outcome_witness :
  fst (Mage.setBuildVersion unit snapshotOutput snapshotExec snapshotStart) = None /\
  Mage.buildTag
    (Mage.globals (snd (Mage.setBuildVersion unit snapshotOutput snapshotExec snapshotStart)))
    = "v1.2.3-3-gabc1234".
Proof.
  destruct (proj2 (setBuildVersion_outcome unit snapshotOutput snapshotExec snapshotStart)
              "v1.2.3-3-gabc1234" tt eq_refl)
    as (Hnil & Htag & _).
  by split.
Defined.

(** X17 (witness). A snapshot build, the tag v1.2.3 and the tag
    release-5. *)
Lemma setSemVerTags_outcome_witness :
  Mage.semverTags
    (Mage.globals (snd (Mage.setSemVerTags unit demoNewVersion demoItoa snapshotStart)))
    = ["latest"] /\
  Mage.semverTags
    (Mage.globals
       (snd (Mage.setSemVerTags unit demoNewVersion demoItoa
               (Mage.mkBuildState (Mage.mkGlobals true [] "v1.2.3" 0) tt []))))
    = ["1.2.3"; "1.2"; "1"] /\
  fst (Mage.setSemVerTags unit demoNewVersion demoItoa
         (Mage.mkBuildState (Mage.mkGlobals true [] "release-5" 0) tt []))
    = Some (Errorf "release-5 is not in dotted-tri format").
Proof.
  split; [| split].
  - rewrite (proj1 (setSemVerTags_outcome unit demoNewVersion demoItoa snapshotStart)
               eq_refl).
    reflexivity.
  - apply (proj1 (proj2 (setSemVerTags_outcome unit demoNewVersion demoItoa
                           (Mage.mkBuildState (Mage.mkGlobals true [] "v1.2.3" 0) tt [])))
             1%Z 2%Z 3%Z eq_refl eq_refl).
  - apply (proj1 (proj2 (proj2 (setSemVerTags_outcome unit demoNewVersion demoItoa
                           (Mage.mkBuildState (Mage.mkGlobals true [] "release-5" 0) tt []))))
             (Errorf "release-5 is not in dotted-tri format") eq_refl eq_refl).
Defined.

(** X18 (witness). [init] on a snapshot and on the tag release-5. *)
Lemma init_outcome_witness :
  (exists st',
     Mage.init unit snapshotOutput snapshotExec demoNewVersion demoItoa demoParseTime
       snapshotStart = Mage.Returned tt st' /\
     Mage.semverTags (Mage.globals st') = ["latest"]) /\
  (exists st',
     Mage.init unit taggedOutput taggedExec demoNewVersion demoItoa demoParseTime
       snapshotStart = Mage.Exited 1 st').
Proof.
  split.
  - destruct (proj1 (init_outcome unit snapshotOutput snapshotExec demoNewVersion demoItoa
                       demoParseTime snapshotStart _ eq_refl)
                "v1.2.3-3-gabc1234" tt (Errorf "exit status 128") "" tt eq_refl eq_refl)
      as (st' & Hinit & Htags & _).
    exists st'. by split.
  - apply (proj1 (proj2 (init_outcome unit taggedOutput taggedExec demoNewVersion demoItoa
                           demoParseTime snapshotStart _ eq_refl))
             "release-5" tt "release-5" tt
             (Errorf "release-5 is not in dotted-tri format") eq_refl eq_refl eq_refl).
Defined.

(** X19 (witness). A docker daemon that refuses the build. *)
Lemma Docker_failed_build_witness :
  exists st',
    Mage.Docker (list (list string)) failingRun (fun _ => None) noDeps
      ["1.2.3"; "1.2"; "1"] releaseStart
    = Mage.Returned (Some (Errorf "exit status 1")) st' /\
    Mage.rfiles st' !! "dist/Dockerfile" = Some dockerfileBytes /\
    Mage.routside st' = [["docker"; "build"; "-t"; "wiki"; "dist"]].
Proof.
  apply (Docker_failed_build (list (list string)) failingRun (fun _ => None) noDeps
           ["1.2.3"; "1.2"; "1"] releaseStart releaseStart dockerfileBytes
           (Errorf "exit status 1")).
  - reflexivity.
  - vm_compute. reflexivity.
  - reflexivity.
  - reflexivity.
Defined.


(** X21 (witness). A checkout without gorelease.Dockerfile. *)
Lemma Docker_without_Dockerfile_witness :
  exists st',
    Mage.Docker (list (list string)) failingRun (fun _ => None) noDeps ["latest"]
      (Mage.mkReleaseState ∅ [] [] [])
    = Mage.Exited 1 st' /\
    Mage.rfiles st' = ∅ /\ Mage.routside st' = [].
Proof.
  apply (Docker_without_Dockerfile (list (list string)) failingRun (fun _ => None) noDeps
           ["latest"] (Mage.mkReleaseState ∅ [] [] []) (Mage.mkReleaseState ∅ [] [] [])).
  - reflexivity.
  - vm_compute. reflexivity.
Defined.

(** X22 (witness). An archiver that fails and leaves nothing, and one
    that fails and leaves an archive. *)
Lemma Archive_checksums_witness :
  Mage.rfiles
    (Mage.archiveOne (list (list string)) (fun _ => None) failingArchive
       (fun data => data) (fun sum => Byte.x30 :: sum) "1.2.3" linuxAmd64 releaseStart)
    !! (Mage.archiveOutputName "1.2.3" linuxAmd64 +:+ "_checksum.sha256")
  = Some [Byte.x30] /\
  Mage.rfiles
    (Mage.archiveOne (list (list string)) (fun _ => None) partialArchive
       (fun data => data) (fun sum => Byte.x30 :: sum) "1.2.3" linuxAmd64 releaseStart)
    !! (Mage.archiveOutputName "1.2.3" linuxAmd64 +:+ "_checksum.sha256")
  = Some [Byte.x30; Byte.x1f; Byte.x8b].
Proof.
  split.
  - destruct (Archive_checksums (list (list string)) (fun _ => None) failingArchive
                (fun data => data) (fun sum => Byte.x30 :: sum) noDeps
                "1.2.3" linuxAmd64 releaseStart) as (_ & Hfailed & _).
    apply (Hfailed (Mage.rfiles releaseStart) (Errorf "file not found")).
    + reflexivity.
    + vm_compute. reflexivity.
    + reflexivity.
  - destruct (Archive_checksums (list (list string)) (fun _ => None) partialArchive
                (fun data => data) (fun sum => Byte.x30 :: sum) noDeps
                "1.2.3" linuxAmd64 releaseStart) as (_ & _ & Hthere & _).
    apply (Hthere
             (<[Mage.archiveOutputName "1.2.3" linuxAmd64 +:+ ".tar.gz" :=
                  [Byte.x1f; Byte.x8b]]> (Mage.rfiles releaseStart))
             (Some (Errorf "file not found")) [Byte.x1f; Byte.x8b]).
    + reflexivity.
    + vm_compute. reflexivity.
    + reflexivity.
Defined.

(** ** More on the two route middlewares *)

Section RouteProperties.

Import Middleware.

Lemma requiresAuth_off (p : string) :
  In p routePrefixes -> requiresAuth false false p = false.
Proof.
  intros Hp. simpl in Hp.
  repeat (destruct Hp as [<- | Hp]; [vm_compute; reflexivity |]). destruct Hp.
Qed.

Lemma requiresAuth_login (aR aW : bool) : requiresAuth aR aW "/wiki/login" = false.
Proof. vm_compute. reflexivity. Qed.

Lemma CheckAuthentication_cases (aR aW : bool) (order : list string) (request : Request) :
  Permutation order routePrefixes ->
  CheckAuthentication aR aW order request = [WriteHeader StatusNotFound] \/
  exists p, In p routePrefixes /\ HasPrefix (URLPath request) p = true /\
    CheckAuthentication aR aW order request =
      if requiresAuth aR aW p
      then match getUserForRequest request with
           | None => [WriteHeader StatusUnauthorized]
           | Some _ => [ServeNext request]
           end
      else [ServeNext request].
Proof.
  intros Hperm.
  destruct (existsb (HasPrefix (URLPath request)) routePrefixes) eqn:Hex.
  - right. apply existsb_exists in Hex as (p & Hp & Hpre). exists p.
    split; [done |]. split; [done |]. by apply CheckAuthentication_match.
  - left. unfold CheckAuthentication. rewrite findPrefix_in_none; [reflexivity |].
    intros p Hp. destruct (HasPrefix (URLPath request) p) eqn:E; [| done].
    assert (existsb (HasPrefix (URLPath request)) routePrefixes = true); [| congruence].
    apply existsb_exists. exists p. split; [| done].
    by apply (Permutation_in p Hperm).
Qed.

(** X23. The authentication check never answers 401 to a request that
    carries a user, nor to any request when neither reads nor writes
    require authentication; and the login route is passed on whatever the
    two settings are. *)
Theorem CheckAuthentication_never_locks_out (aR aW : bool) (order : list string)
    (request : Request) :
  Permutation order routePrefixes ->
  (is_Some (getUserForRequest request) ->
     CheckAuthentication aR aW order request <> [WriteHeader StatusUnauthorized]) /\
  (aR = false -> aW = false ->
     CheckAuthentication aR aW order request <> [WriteHeader StatusUnauthorized]) /\
  (HasPrefix (URLPath request) "/wiki/login" = true ->
     CheckAuthentication aR aW order request = [ServeNext request]).
Proof.
  intros Hperm. split; [| split].
  - intros [u Hu].
    destruct (CheckAuthentication_cases aR aW order request Hperm)
      as [-> | (p & Hp & Hpre & ->)]; [discriminate |].
    rewrite Hu. by destruct (requiresAuth aR aW p).
  - intros -> ->.
    destruct (CheckAuthentication_cases false false order request Hperm)
      as [-> | (p & Hp & Hpre & ->)]; [discriminate |].
    by rewrite requiresAuth_off.
  - intros Hlogin.
    rewrite (CheckAuthentication_match aR aW order request "/wiki/login" Hperm);
      [| simpl; tauto | done].
    by rewrite requiresAuth_login.
Qed.

Lemma lower_ascii_idempotent (c : ascii) : lower_ascii (lower_ascii c) = lower_ascii c.
Proof. destruct c as [[] [] [] [] [] [] [] []]; reflexivity. Qed.

Lemma ToLowerASCII_idempotent (s : string) :
  ToLowerASCII (ToLowerASCII s) = ToLowerASCII s.
Proof.
  induction s as [|c s IH]; [reflexivity |].
  simpl. by rewrite lower_ascii_idempotent, IH.
Qed.

(** X24. With a lower-casing that changes nothing when applied twice, the
    redirect of [LowerCaseCanonical] does not loop: a request for the URI
    it redirects to is passed on. *)
Theorem LowerCaseCanonical_redirect_settles (ToLower : string -> string)
    (request request' : Request) (url : string) (code : nat) :
  (forall s, ToLower (ToLower s) = ToLower s) ->
  LowerCaseCanonical ToLower request = [Redirect url code] ->
  RequestURI request' = url ->
  LowerCaseCanonical ToLower request' = [ServeNext request'].
Proof.
  intros Hidem Hredirect Huri. unfold LowerCaseCanonical in *.
  destruct (negb (String.eqb (ToLower (RequestURI request)) (RequestURI request)));
    [| discriminate].
  injection Hredirect as <- _. rewrite Huri, Hidem, String.eqb_refl. reflexivity.
Qed.

End RouteProperties.

(** X23 (witness). alice on an edit route that requires authentication,
    an anonymous reader of an open wiki, and the login route. *)
Lemma CheckAuthentication_never_locks_out_witness :
  Middleware.CheckAuthentication true true (rev Middleware.routePrefixes)
    (aliceRequest "/edit/home") <> [Middleware.WriteHeader 401] /\
  Middleware.CheckAuthentication false false (rev Middleware.routePrefixes)
    (anonymousRequest "/edit/home") <> [Middleware.WriteHeader 401] /\
  Middleware.CheckAuthentication true true (rev Middleware.routePrefixes)
    (anonymousRequest "/wiki/login") = [Middleware.ServeNext (anonymousRequest "/wiki/login")].
Proof.
  assert (Hperm : Permutation (rev Middleware.routePrefixes) Middleware.routePrefixes)
    by (symmetry; apply Permutation_rev).
  split; [| split].
  - apply (proj1 (CheckAuthentication_never_locks_out true true _
                    (aliceRequest "/edit/home") Hperm)).
    vm_compute. eexists. reflexivity.
  - apply (proj1 (proj2 (CheckAuthentication_never_locks_out false false _
                           (anonymousRequest "/edit/home") Hperm))); reflexivity.
  - apply (proj2 (proj2 (CheckAuthentication_never_locks_out true true _
                           (anonymousRequest "/wiki/login") Hperm))).
    reflexivity.
Defined.

(** X24 (witness). "/View/Home" is redirected to "/view/home", which is
    served. *)
Lemma LowerCaseCanonical_redirect_settles_witness :
  Middleware.LowerCaseCanonical Middleware.ToLowerASCII (anonymousRequest "/view/home")
    = [Middleware.ServeNext (anonymousRequest "/view/home")].
Proof.
  apply (LowerCaseCanonical_redirect_settles Middleware.ToLowerASCII
           (anonymousRequest "/View/Home") (anonymousRequest "/view/home")
           "/view/home" 308 ToLowerASCII_idempotent); reflexivity.
Defined.
